(** * ABCD assessment orchestration: a shallow embedding of [analyse.py]

    The development models the run wrapper [analyse], the orchestrator
    [execute_abcd_assessment_for_videos] and the HTTP endpoint of [main.py]
    as programs in a state-and-exception monad.  The external collaborators
    (configuration builder, provider registry, annotation generator, trimmer,
    evaluation service, reporting and cleanup helpers) are fields of an
    environment record: each one is an arbitrary function of its arguments
    and of a hidden world, which may return, raise, print and change the
    world.  Every collaborator invocation is appended to a call log, which is
    what the statements about "which step ran for which video" talk about. *)

From stdpp Require Import gmap strings list.
From Stdlib Require Import Ascii.
From Stdlib Require String.

(** ** Python strings *)

(** The line terminator appended by [print]. *)
Definition nl : string := String (ascii_of_nat 10) EmptyString.

(** [s.startswith(p)] *)
Fixpoint startswith (s p : string) {struct p} : bool :=
  match p with
  | EmptyString => true
  | String c p' =>
      match s with
      | EmptyString => false
      | String d s' => if Ascii.eqb c d then startswith s' p' else false
      end
  end.

(** [sub in s] on strings: [sub] occurs somewhere in [s]. *)
Fixpoint str_in (sub s : string) : bool :=
  startswith s sub ||
  match s with
  | EmptyString => false
  | String _ s' => str_in sub s'
  end.

(** The propositional reading of an occurrence. *)
Definition Substring (sub s : string) : Prop :=
  exists a b, s = a +:+ sub +:+ b.

(** ** Data model *)

(** Modelled from the spec: the enumeration [models.CreativeProviderType]
    (cloud storage or video platform); only its uses are in the sources. *)
Inductive CreativeProviderType := GCS | YOUTUBE.

(** Modelled from the spec: the enumeration [models.VideoFeatureCategory]. *)
Inductive VideoFeatureCategory := LONG_FORM_ABCD | SHORTS.

(** Modelled from the spec: the value object [configuration.Configuration].
    [video_uris] is [None] when the caller supplied no list at all. *)
Record Configuration := {
  creative_provider_type : CreativeProviderType;
  video_uris : option (list string);
  brand_name : string;
  brand_variations : list string;
  branded_products : list string;
  branded_products_categories : list string;
  branded_call_to_actions : list string;
  use_annotations : bool;
  run_long_form_abcd : bool;
  run_shorts : bool;
  bq_table_name : option string
}.

(** Truth value of [config.video_uris]: [None] and the empty list are falsy. *)
Definition truthy (l : option (list string)) : bool :=
  match l with
  | Some (_ :: _) => true
  | _ => false
  end.

(** A raised exception: its class name, [str(ex)], the text that the
    [traceback] module writes for it where it is handled (header, stack
    entries and the final lines, as Python renders them for its class), and
    whether it is an instance of [Exception]; [KeyboardInterrupt],
    [SystemExit] and [GeneratorExit] are not. *)
Record Exn := {
  exc_type : string;
  exc_str : string;
  exc_traceback : string;
  exc_is_exception : bool
}.

Inductive Outcome (A : Type) :=
| Returned (a : A)
| Raised (ex : Exn).
Arguments Returned {A} a.
Arguments Raised {A} ex.

(** Where a stream currently points: the process console, or the in-memory
    buffer of the run wrapper. *)
Inductive Sink := Console | Buffer.

Section Model.

Context {World PyObj EvaluatedFeature Time : Type}.

(** [models.FeatureEvaluation]: an ordered sequence of evaluated features. *)
Definition FeatureEvaluation := list EvaluatedFeature.

(** Modelled from the spec: the record [models.VideoAssessment]; both feature
    fields are constructor arguments. *)
Record VideoAssessment := {
  va_brand_name : string;
  va_video_uri : string;
  long_form_abcd_evaluated_features : list EvaluatedFeature;
  shorts_evaluated_features : list EvaluatedFeature;
  va_config : Configuration
}.

(** The six arguments of [analyse]; [None] is Python's [None]. *)
Record RunArgs := {
  arg_video_uris : option PyObj;
  arg_brand_name : option PyObj;
  arg_brand_variations : option PyObj;
  arg_branded_products : option PyObj;
  arg_branded_products_categories : option PyObj;
  arg_branded_call_to_actions : option PyObj
}.

(** What one call into a collaborator does: its outcome, what it wrote on
    the standard and the diagnostic stream, and the world it leaves. *)
Record Reply (A : Type) := {
  reply_outcome : Outcome A;
  reply_stdout : string;
  reply_stderr : string;
  reply_world : World
}.
Arguments Build_Reply {A} _ _ _ _.
Arguments reply_outcome {A} _.
Arguments reply_stdout {A} _.
Arguments reply_stderr {A} _.
Arguments reply_world {A} _.

(** [creative_provider_proto.CreativeProviderProto] *)
Record CreativeProviderProto := {
  get_creative_uris : Configuration -> World -> Reply (list string)
}.

(** The external collaborators of [analyse.py]. *)
Record Env := {
  build_custom_config : RunArgs -> World -> Reply Configuration;
  invalid_brand_metadata : Configuration -> World -> Reply bool;
  get_provider : CreativeProviderType -> World -> Reply CreativeProviderProto;
  generate_video_annotations : Configuration -> string -> World -> Reply unit;
  trim_video : Configuration -> string -> World -> Reply unit;
  evaluate_features :
    Configuration -> string -> VideoFeatureCategory -> World ->
    Reply (list EvaluatedFeature);
  print_abcd_assessment :
    string -> string -> list EvaluatedFeature -> World -> Reply unit;
  remove_local_video_files : World -> Reply unit;
  (** [time.time()]: the reading, and the world after it (the clock has
      moved on) *)
  time_time : World -> Time * World;
  (** the rendering [{(t1 - t0)/60:.2f}] of two clock readings *)
  format_mins : Time -> Time -> string
}.

(** One entry of the call log. *)
Inductive Call :=
| CallBuildCustomConfig (args : RunArgs)
| CallInvalidBrandMetadata (config : Configuration)
| CallGetProvider (t : CreativeProviderType)
| CallGetCreativeUris (config : Configuration)
| CallGenerateVideoAnnotations (config : Configuration) (video_uri : string)
| CallTrimVideo (config : Configuration) (video_uri : string)
| CallEvaluateFeatures (config : Configuration) (video_uri : string)
    (features_category : VideoFeatureCategory)
    (result : Outcome (list EvaluatedFeature))
| NewVideoAssessment (va : VideoAssessment)
| CallPrintAbcdAssessment (brand : string) (video_uri : string)
    (features : list EvaluatedFeature)
| CallRemoveLocalVideoFiles
| LoggingError (msg : string)
| LoggingInfo (msg : string).

(** ** Program state and the monad *)

Record St := {
  world : World;
  calls : list Call;
  sys_stdout : Sink;
  sys_stderr : Sink;
  buffer : string;
  console : string
}.

Definition M (A : Type) : Type := St -> Outcome A * St.

Definition ret {A} (a : A) : M A := fun s => (Returned a, s).

Definition raise {A} (ex : Exn) : M A := fun s => (Raised ex, s).

Definition bind {A B} (m : M A) (k : A -> M B) : M B :=
  fun s =>
    match m s with
    | (Returned a, s') => k a s'
    | (Raised ex, s') => (Raised ex, s')
    end.

(** [try: m except Exception as ex: h ex]; an exception that is not an
    instance of [Exception] is not caught. *)
Definition try_except {A} (m : M A) (h : Exn -> M A) : M A :=
  fun s =>
    match m s with
    | (Returned a, s') => (Returned a, s')
    | (Raised ex, s') =>
        if exc_is_exception ex then h ex s' else (Raised ex, s')
    end.

Definition write (k : Sink) (txt : string) (s : St) : St :=
  match k with
  | Console =>
      {| world := world s; calls := calls s; sys_stdout := sys_stdout s;
         sys_stderr := sys_stderr s; buffer := buffer s;
         console := console s +:+ txt |}
  | Buffer =>
      {| world := world s; calls := calls s; sys_stdout := sys_stdout s;
         sys_stderr := sys_stderr s; buffer := buffer s +:+ txt;
         console := console s |}
  end.

Definition record_call (c : Call) (s : St) : St :=
  {| world := world s; calls := calls s ++ [c]; sys_stdout := sys_stdout s;
     sys_stderr := sys_stderr s; buffer := buffer s; console := console s |}.

Definition set_world (w : World) (s : St) : St :=
  {| world := w; calls := calls s; sys_stdout := sys_stdout s;
     sys_stderr := sys_stderr s; buffer := buffer s; console := console s |}.

Definition set_streams (out err : Sink) (s : St) : St :=
  {| world := world s; calls := calls s; sys_stdout := out;
     sys_stderr := err; buffer := buffer s; console := console s |}.

(** [buffer = io.StringIO()] *)
Definition new_buffer (s : St) : St :=
  {| world := world s; calls := calls s; sys_stdout := sys_stdout s;
     sys_stderr := sys_stderr s; buffer := ""; console := console s |}.

(** [print(txt)]: the text and a newline go to the current [sys.stdout]. *)
Definition print (txt : string) : M unit :=
  fun s => (Returned tt, write (sys_stdout s) (txt +:+ nl) s).

(** [traceback.print_exc(file=buffer)] *)
Definition print_exc_to_buffer (ex : Exn) : M unit :=
  fun s => (Returned tt, write Buffer (exc_traceback ex) s).

(** [buffer.getvalue()] *)
Definition getvalue : M string := fun s => (Returned (buffer s), s).

(** [logging.error] and [logging.info]: the record is kept in the call
    log. What the handler does with it (under the [basicConfig] of
    [main.py] it writes a line to the stream that was the process's
    stderr when the handler was set up) is not part of the state: [buffer]
    and [console] hold what [print], [traceback] and the collaborators
    write to [sys.stdout] and [sys.stderr], never logging records. *)
Definition logging_error (msg : string) : M unit :=
  fun s => (Returned tt, record_call (LoggingError msg) s).

Definition logging_info (msg : string) : M unit :=
  fun s => (Returned tt, record_call (LoggingInfo msg) s).

(** A call into a collaborator: it runs on the current world, what it
    printed goes to the current streams, the call is logged, and its outcome
    (a value or an exception) is the outcome of the call expression. *)
Definition after_call (c : Call) {A} (r : Reply A) (s : St) : St :=
  write (sys_stderr s) (reply_stderr r)
    (write (sys_stdout s) (reply_stdout r)
       (set_world (reply_world r) (record_call c s))).

Definition invoke {A} (c : Outcome A -> Call) (f : World -> Reply A) : M A :=
  fun s =>
    let r := f (world s) in
    (reply_outcome r, after_call (c (reply_outcome r)) r s).

(** A constructor call of [models.VideoAssessment], logged. *)
Definition new_video_assessment (va : VideoAssessment) : M VideoAssessment :=
  fun s => (Returned va, record_call (NewVideoAssessment va) s).

(** [with redirect_stdout(buffer), redirect_stderr(buffer): m]: both streams
    point to the buffer inside, and are put back on every way out. *)
Definition with_redirect {A} (m : M A) : M A :=
  fun s =>
    let '(o, s') := m (set_streams Buffer Buffer s) in
    (o, set_streams (sys_stdout s) (sys_stderr s) s').

(** [time.time()] *)
Definition read_clock (env : Env) : M Time :=
  fun s =>
    (Returned (time_time env (world s)).1,
     set_world (time_time env (world s)).2 s).

End Model.

Arguments Build_Reply {World A} _ _ _ _.
Arguments reply_outcome {World A} _.
Arguments reply_stdout {World A} _.
Arguments reply_stderr {World A} _.
Arguments reply_world {World A} _.
Arguments VideoAssessment : clear implicits.
Arguments RunArgs : clear implicits.
Arguments Reply : clear implicits.
Arguments CreativeProviderProto : clear implicits.
Arguments Env : clear implicits.
Arguments Call : clear implicits.
Arguments St : clear implicits.
Arguments M : clear implicits.

Declare Scope prog_scope.
Delimit Scope prog_scope with prog.
Notation "x <- m ;; k" := (bind m (fun x => k))
  (at level 100, m at next level, right associativity) : prog_scope.
Notation "m ;; k" := (bind m (fun _ => k))
  (at level 100, right associativity) : prog_scope.

Local Open Scope prog_scope.

(** ** The orchestrator *)

Section Program.

Context {World PyObj EvaluatedFeature Time : Type}.

Local Abbreviation Env' := (Env World PyObj EvaluatedFeature Time).
Local Abbreviation M' := (M World PyObj EvaluatedFeature).

Definition provider_type_eqb (a b : CreativeProviderType) : bool :=
  match a, b with
  | GCS, GCS => true
  | YOUTUBE, YOUTUBE => true
  | _, _ => false
  end.

(** The two error messages of the consistency check. *)
Definition gcs_mismatch_msg (video_uri : string) : string :=
  "The creative provider GCS does not match with the video uri " +:+
  video_uri +:+ ". Stopping execution. Please check.".

Definition youtube_mismatch_msg (video_uri : string) : string :=
  "The creative provider YOUTUBE does not match with the video uri " +:+
  video_uri +:+ ". Stopping execution. Please check.".

(** One iteration of the loop once both consistency tests have let the
    locator through: everything from the "Processing ..." message down to
    the cleanup. *)
Definition assess_video (env : Env') (config : Configuration)
    (video_uri : string) : M' unit :=
  logging_info
    ("Processing ABCD Assessment for video " +:+ video_uri +:+ "...") ;;
  print (nl +:+ nl +:+ "Processing ABCD Assessment for video " +:+
         video_uri +:+ "... " +:+ nl) ;;
  (if use_annotations config
      && provider_type_eqb (creative_provider_type config) GCS
   then invoke (fun _ => CallGenerateVideoAnnotations config video_uri)
          (generate_video_annotations env config video_uri)
   else ret tt) ;;
  (if run_long_form_abcd config
      && provider_type_eqb (creative_provider_type config) GCS
   then invoke (fun _ => CallTrimVideo config video_uri)
          (trim_video env config video_uri)
   else ret tt) ;;
  long_form <-
    (if run_long_form_abcd config
     then invoke (CallEvaluateFeatures config video_uri LONG_FORM_ABCD)
            (evaluate_features env config video_uri LONG_FORM_ABCD)
     else ret []) ;;
  shorts <-
    (if run_shorts config
     then invoke (CallEvaluateFeatures config video_uri SHORTS)
            (evaluate_features env config video_uri SHORTS)
     else ret []) ;;
  video_assessment <-
    new_video_assessment
      {| va_brand_name := brand_name config;
         va_video_uri := video_uri;
         long_form_abcd_evaluated_features := long_form;
         shorts_evaluated_features := shorts;
         va_config := config |} ;;
  (if Nat.ltb 0 (length long_form)
   then invoke (fun _ => CallPrintAbcdAssessment
                           (va_brand_name video_assessment)
                           (va_video_uri video_assessment) long_form)
          (print_abcd_assessment env (va_brand_name video_assessment)
             (va_video_uri video_assessment) long_form)
   else logging_info
          "There are not Full ABCD evaluated features results to display.") ;;
  (if Nat.ltb 0 (length shorts)
   then invoke (fun _ => CallPrintAbcdAssessment
                           (va_brand_name video_assessment)
                           (va_video_uri video_assessment) shorts)
          (print_abcd_assessment env (va_brand_name video_assessment)
             (va_video_uri video_assessment) shorts)
   else logging_info
          "There are not Shorts evaluated features results to display.") ;;
  invoke (fun _ => CallRemoveLocalVideoFiles) (remove_local_video_files env).

(** [for video_uri in video_uris: ...]; each [break] ends the recursion. *)
Fixpoint video_loop (env : Env') (config : Configuration)
    (video_uris : list string) : M' unit :=
  match video_uris with
  | [] => ret tt
  | video_uri :: rest =>
      if provider_type_eqb (creative_provider_type config) GCS
         && negb (str_in "gs://" video_uri)
      then logging_error (gcs_mismatch_msg video_uri)
      else if provider_type_eqb (creative_provider_type config) YOUTUBE
              && negb (str_in "https://www.youtube.com" video_uri)
      then logging_error (youtube_mismatch_msg video_uri)
      else assess_video env config video_uri ;; video_loop env config rest
  end.

(** The provider lookup in the registry and the resolution of the locators
    (the registry is keyed by [config.creative_provider_type.value]). *)
Definition creative_uris (env : Env') (config : Configuration)
    : M' (list string) :=
  creative_provider <-
    invoke (fun _ => CallGetProvider (creative_provider_type config))
      (get_provider env (creative_provider_type config)) ;;
  invoke (fun _ => CallGetCreativeUris config)
    (get_creative_uris creative_provider config).

Definition execute_abcd_assessment_for_videos (env : Env')
    (config : Configuration) : M' unit :=
  video_uris <- creative_uris env config ;;
  video_loop env config video_uris.

(** ** The run wrapper *)

(** The block under [with redirect_stdout(buffer), redirect_stderr(buffer)].
    [Some d] is the [return d] inside the block, [None] is falling out of
    its end. *)
Definition analyse_block (env : Env') (args : RunArgs PyObj)
    : M' (option (gmap string string)) :=
  config <- invoke (fun _ => CallBuildCustomConfig args)
              (build_custom_config env args) ;;
  invalid <- invoke (fun _ => CallInvalidBrandMetadata config)
               (invalid_brand_metadata env config) ;;
  if (invalid : bool) then
    print ("Invalid brand metadata. Please provide brand details." +:+ nl) ;;
    logs <- getvalue ;;
    ret (Some (<["error" := "Invalid brand metadata"]> {["logs" := logs]}))
  else
    start_time <- read_clock env ;;
    print ("Starting ABCD assessment..." +:+ nl) ;;
    (if truthy (video_uris config)
     then execute_abcd_assessment_for_videos env config ;;
          print ("Finished ABCD assessment." +:+ nl)
     else print ("There are no videos to process." +:+ nl)) ;;
    now <- read_clock env ;;
    print ("ABCD assessment took " +:+ format_mins env now start_time +:+
           " mins." +:+ nl) ;;
    ret None.

Definition analyse (env : Env') (args : RunArgs PyObj)
    : M' (gmap string string) :=
  fun s0 =>
    (early <-
       try_except (with_redirect (analyse_block env args))
         (fun ex =>
            print ("ERROR: " +:+ exc_str ex) ;;
            print_exc_to_buffer ex ;;
            ret None) ;;
     match early with
     | Some result => ret result
     | None => logs <- getvalue ;; ret {["logs" := logs]}
     end) (new_buffer s0).

(** ** The transport ([main.py]) *)

(** [analyse_endpoint], for a request whose body [request.json()] has
    parsed into a dictionary: [data.get] yields [None] for an absent key,
    and the result of [analyse] is the response. *)
Definition analyse_endpoint (env : Env') (data : gmap string PyObj)
    : M' (gmap string string) :=
  analyse env
    {| arg_video_uris := data !! "video_url";
       arg_brand_name := data !! "brand";
       arg_brand_variations := data !! "brand_variations";
       arg_branded_products := data !! "products";
       arg_branded_products_categories := data !! "categories";
       arg_branded_call_to_actions := data !! "cta" |}.

End Program.

(** ** Observations on a run *)

Section Observations.

Context {World PyObj EvaluatedFeature Time : Type}.

Local Abbreviation Env' := (Env World PyObj EvaluatedFeature Time).
Local Abbreviation M' := (M World PyObj EvaluatedFeature).
Local Abbreviation St' := (St World PyObj EvaluatedFeature).
Local Abbreviation Call' := (Call PyObj EvaluatedFeature).

(** The two tests at the head of the loop body, taken together: the locator
    is refused for the configured provider. *)
Definition locator_mismatch (config : Configuration) (video_uri : string)
    : bool :=
  (provider_type_eqb (creative_provider_type config) GCS
   && negb (str_in "gs://" video_uri))
  || (provider_type_eqb (creative_provider_type config) YOUTUBE
      && negb (str_in "https://www.youtube.com" video_uri)).

Definition mismatch_msg (config : Configuration) (video_uri : string)
    : string :=
  match creative_provider_type config with
  | GCS => gcs_mismatch_msg video_uri
  | YOUTUBE => youtube_mismatch_msg video_uri
  end.

Definition consistent (config : Configuration) (video_uri : string) : bool :=
  negb (locator_mismatch config video_uri).

Definition is_annotation_call (c : Call') : bool :=
  match c with CallGenerateVideoAnnotations _ _ => true | _ => false end.

Definition is_trim_call (c : Call') : bool :=
  match c with CallTrimVideo _ _ => true | _ => false end.

Definition is_cleanup_call (c : Call') : bool :=
  match c with CallRemoveLocalVideoFiles => true | _ => false end.

Definition is_evaluate_call (c : Call') : bool :=
  match c with CallEvaluateFeatures _ _ _ _ => true | _ => false end.

(** The assessment records constructed, in order of construction. *)
Fixpoint assessments (l : list Call')
    : list (VideoAssessment EvaluatedFeature) :=
  match l with
  | [] => []
  | NewVideoAssessment va :: l' => va :: assessments l'
  | _ :: l' => assessments l'
  end.

(** The world in which the evaluation of a video starts: the world at the
    head of its iteration, advanced by the annotation generator and by the
    trimmer where their gates are open. *)
Definition evaluation_world (env : Env') (config : Configuration)
    (video_uri : string) (w : World) : World :=
  let w1 :=
    if use_annotations config
       && provider_type_eqb (creative_provider_type config) GCS
    then reply_world (generate_video_annotations env config video_uri w)
    else w in
  if run_long_form_abcd config
     && provider_type_eqb (creative_provider_type config) GCS
  then reply_world (trim_video env config video_uri w1)
  else w1.

(** What the evaluation service answers for the long-form category when it
    is called at that point of the iteration. *)
Definition long_form_reply (env : Env') (config : Configuration)
    (video_uri : string) (w : World) : Reply World (list EvaluatedFeature) :=
  evaluate_features env config video_uri LONG_FORM_ABCD
    (evaluation_world env config video_uri w).

(** What the evaluation service answers for the shorts category: it is
    called after the long-form evaluation when that track is enabled. *)
Definition shorts_reply (env : Env') (config : Configuration)
    (video_uri : string) (w : World) : Reply World (list EvaluatedFeature) :=
  evaluate_features env config video_uri SHORTS
    (if run_long_form_abcd config
     then reply_world (long_form_reply env config video_uri w)
     else evaluation_world env config video_uri w).

(** The part of the call log that a run of [m] from [s] has added. *)
Definition new_calls {A} (m : M' A) (s : St') : list Call' :=
  drop (length (calls s)) (calls (m s).2).

(** [yields m Q]: from every state, [m] only appends to the call log, and
    its outcome and the calls it appends satisfy [Q]. *)
Definition yields {A} (m : M' A) (Q : Outcome A -> list Call' -> Prop)
    : Prop :=
  forall s, exists new, calls (m s).2 = calls s ++ new /\ Q (m s).1 new.

(** [uniform m]: from any two states, [m] has the same outcome and appends
    the same calls. *)
Definition uniform {A} (m : M' A) : Prop :=
  forall s1 s2, exists new,
    (m s1).1 = (m s2).1
    /\ calls (m s1).2 = calls s1 ++ new
    /\ calls (m s2).2 = calls s2 ++ new.

(** A collaborator is a stub when its outcome depends on its arguments
    only, not on the world it is called in. *)
Definition stub {A} (f : World -> Reply World A) : Prop :=
  forall w1 w2, reply_outcome (f w1) = reply_outcome (f w2).

Record stubbed (env : Env') : Prop := {
  stub_get_provider : forall t, stub (get_provider env t);
  stub_get_creative_uris :
    forall t w p config,
      reply_outcome (get_provider env t w) = Returned p ->
      stub (get_creative_uris p config);
  stub_generate_video_annotations :
    forall config u, stub (generate_video_annotations env config u);
  stub_trim_video : forall config u, stub (trim_video env config u);
  stub_evaluate_features :
    forall config u cat, stub (evaluate_features env config u cat);
  stub_print_abcd_assessment :
    forall b u fs, stub (print_abcd_assessment env b u fs);
  stub_remove_local_video_files : stub (remove_local_video_files env)
}.

End Observations.

(** ** Concrete collaborators, used to run the model *)

Module Fixtures.

Definition config_of (t : CreativeProviderType) (annotations long_form shorts : bool)
    (uris : option (list string)) (brand : string) : Configuration :=
  {| creative_provider_type := t;
     video_uris := uris;
     brand_name := brand;
     brand_variations := [];
     branded_products := [];
     branded_products_categories := [];
     branded_call_to_actions := [];
     use_annotations := annotations;
     run_long_form_abcd := long_form;
     run_shorts := shorts;
     bq_table_name := None |}.

Definition replies {A} (a : A) (out : string) (w : nat) : Reply nat A :=
  {| reply_outcome := Returned a; reply_stdout := out; reply_stderr := "";
     reply_world := S w |}.

Definition boom : Exn :=
  {| exc_type := "RuntimeError"; exc_str := "boom";
     exc_traceback :=
       "Traceback (most recent call last):" +:+ nl +:+
       "  File analyse.py, in execute_abcd_assessment_for_videos" +:+ nl +:+
       "RuntimeError: boom" +:+ nl;
     exc_is_exception := true |}.

Definition fails {A} (w : nat) : Reply nat A :=
  {| reply_outcome := Raised boom; reply_stdout := ""; reply_stderr := "";
     reply_world := S w |}.

(** A [KeyboardInterrupt]: not an instance of [Exception]. *)
Definition interrupt : Exn :=
  {| exc_type := "KeyboardInterrupt"; exc_str := "";
     exc_traceback :=
       "Traceback (most recent call last):" +:+ nl +:+
       "  File analyse.py, in execute_abcd_assessment_for_videos" +:+ nl +:+
       "KeyboardInterrupt" +:+ nl;
     exc_is_exception := false |}.

(** A [SyntaxError]: [str(ex)] names the file and the line, the rendered
    traceback shows them in its own way and ends on the bare message. *)
Definition syntax_error : Exn :=
  {| exc_type := "SyntaxError";
     exc_str := "invalid syntax (features.py, line 3)";
     exc_traceback :=
       "Traceback (most recent call last):" +:+ nl +:+
       "  File analyse.py, in execute_abcd_assessment_for_videos" +:+ nl +:+
       "  File features.py, line 3" +:+ nl +:+
       "    x = = 1" +:+ nl +:+
       "        ^" +:+ nl +:+
       "SyntaxError: invalid syntax" +:+ nl;
     exc_is_exception := true |}.

Definition raises {A} (ex : Exn) (w : nat) : Reply nat A :=
  {| reply_outcome := Raised ex; reply_stdout := ""; reply_stderr := "";
     reply_world := S w |}.

Definition provider : CreativeProviderProto nat :=
  {| get_creative_uris :=
       fun config w => replies (default [] (video_uris config)) "" w |}.

(** Every collaborator returns; the evaluation service yields two long-form
    features and one shorts feature; the configuration under test is handed
    over by [build_custom_config] whatever the arguments. *)
Definition env_of (config : Configuration) (brand_invalid : bool)
    : Env nat string string nat :=
  {| build_custom_config := fun _ w => replies config "" w;
     invalid_brand_metadata := fun _ w => replies brand_invalid "" w;
     get_provider := fun _ w => replies provider "" w;
     generate_video_annotations := fun _ _ w => replies tt "" w;
     trim_video := fun _ _ w => replies tt "" w;
     evaluate_features :=
       fun _ _ cat w =>
         replies (match cat with
                  | LONG_FORM_ABCD => ["A1"; "B2"]
                  | SHORTS => ["S1"]
                  end) "" w;
     print_abcd_assessment :=
       fun _ u _ w => replies tt ("ABCD report for " +:+ u +:+ nl) w;
     remove_local_video_files := fun w => replies tt "" w;
     time_time := fun w => (w, S w);
     format_mins := fun _ _ => "0.00" |}.

(** The same collaborators, except that the evaluation service raises. *)
Definition env_failing_evaluation (config : Configuration)
    : Env nat string string nat :=
  {| build_custom_config := build_custom_config (env_of config false);
     invalid_brand_metadata := invalid_brand_metadata (env_of config false);
     get_provider := get_provider (env_of config false);
     generate_video_annotations :=
       generate_video_annotations (env_of config false);
     trim_video := trim_video (env_of config false);
     evaluate_features := fun _ _ _ w => fails w;
     print_abcd_assessment := print_abcd_assessment (env_of config false);
     remove_local_video_files :=
       remove_local_video_files (env_of config false);
     time_time := fun w => (w, S w);
     format_mins := fun _ _ => "0.00" |}.

(** The same collaborators, except that the evaluation service raises the
    given exception. *)
Definition env_raising (ex : Exn) (config : Configuration)
    : Env nat string string nat :=
  {| build_custom_config := build_custom_config (env_of config false);
     invalid_brand_metadata := invalid_brand_metadata (env_of config false);
     get_provider := get_provider (env_of config false);
     generate_video_annotations :=
       generate_video_annotations (env_of config false);
     trim_video := trim_video (env_of config false);
     evaluate_features := fun _ _ _ w => raises ex w;
     print_abcd_assessment := print_abcd_assessment (env_of config false);
     remove_local_video_files :=
       remove_local_video_files (env_of config false);
     time_time := fun w => (w, S w);
     format_mins := fun _ _ => "0.00" |}.

(** The same collaborators, except that the trimmer works only while the
    world is young: it raises from the fifth call into any collaborator
    on. Provider and evaluation service stay stubs. *)
Definition env_flaky_trim (config : Configuration)
    : Env nat string string nat :=
  {| build_custom_config := build_custom_config (env_of config false);
     invalid_brand_metadata := invalid_brand_metadata (env_of config false);
     get_provider := get_provider (env_of config false);
     generate_video_annotations :=
       generate_video_annotations (env_of config false);
     trim_video :=
       fun _ _ w => if Nat.ltb w 5 then replies tt "" w else fails w;
     evaluate_features := evaluate_features (env_of config false);
     print_abcd_assessment := print_abcd_assessment (env_of config false);
     remove_local_video_files :=
       remove_local_video_files (env_of config false);
     time_time := fun w => (w, S w);
     format_mins := fun _ _ => "0.00" |}.

(** The same collaborators, except that the annotation generator raises. *)
Definition env_failing_annotations (config : Configuration)
    : Env nat string string nat :=
  {| build_custom_config := build_custom_config (env_of config false);
     invalid_brand_metadata := invalid_brand_metadata (env_of config false);
     get_provider := get_provider (env_of config false);
     generate_video_annotations := fun _ _ w => fails w;
     trim_video := trim_video (env_of config false);
     evaluate_features := evaluate_features (env_of config false);
     print_abcd_assessment := print_abcd_assessment (env_of config false);
     remove_local_video_files :=
       remove_local_video_files (env_of config false);
     time_time := fun w => (w, S w);
     format_mins := fun _ _ => "0.00" |}.

Definition start : St nat string string :=
  {| world := 0; calls := []; sys_stdout := Console; sys_stderr := Console;
     buffer := ""; console := "" |}.

Definition no_args : RunArgs string :=
  {| arg_video_uris := None; arg_brand_name := None;
     arg_brand_variations := None; arg_branded_products := None;
     arg_branded_products_categories := None;
     arg_branded_call_to_actions := None |}.

(** A batch for the cloud-storage provider whose second locator is refused. *)
Definition batch : list string :=
  ["gs://bucket/video1.mp4"; "https://example.com/video2.mp4";
   "gs://bucket/video3.mp4"].

Definition batch_config : Configuration :=
  config_of GCS true true true (Some batch) "Acme".

(** The state in which the loop starts, once the provider is resolved. *)
Definition resolved : St nat string string :=
  (creative_uris (env_of batch_config false) batch_config start).2.

(** A configuration built from a request that names no video. *)
Definition no_videos_config : Configuration :=
  config_of GCS true true true None "Acme".

(** The state in which the block of [analyse] is left when the evaluation
    service raises on the first video of the batch. *)
Definition after_failure : St nat string string :=
  (with_redirect (analyse_block (env_failing_evaluation batch_config) no_args)
     (new_buffer start)).2.

End Fixtures.

(** ** The command-line entry point *)

Section Cli.

Context {World PyObj EvaluatedFeature Time Namespace : Type}.

Local Abbreviation Env' := (Env World PyObj EvaluatedFeature Time).
Local Abbreviation M' := (M World PyObj EvaluatedFeature).

(** What [main] uses besides the collaborators of [analyse]: the argument
    parser, [utils.build_custom_config] as [main] calls it, with the parsed
    arguments as its one argument, and [str] of the minutes elapsed. *)
Record CliEnv := {
  parse_args : option (list string) -> World -> Reply World Namespace;
  build_custom_config_from_args :
    Namespace -> World -> Reply World Configuration;
  str_mins : Time -> Time -> string
}.

(** A call into a collaborator for which the call log has no entry: it
    runs on the current world and what it printed goes to the current
    streams. *)
Definition call {A} (f : World -> Reply World A) : M' A :=
  fun s =>
    let r := f (world s) in
    (reply_outcome r,
     write (sys_stderr s) (reply_stderr r)
       (write (sys_stdout s) (reply_stdout r)
          (set_world (reply_world r) s))).

(** [traceback.print_exc()]: the traceback goes to the current
    [sys.stderr]. *)
Definition print_exc (ex : Exn) : M' unit :=
  fun s => (Returned tt, write (sys_stderr s) (exc_traceback ex) s).

(** The [try] block of [main]; the [return] after the two error records
    is its last act on that path. *)
Definition main_block (env : Env') (cli : CliEnv)
    (arg_list : option (list string)) : M' unit :=
  args <- call (parse_args cli arg_list) ;;
  config <- call (build_custom_config_from_args cli args) ;;
  invalid <- invoke (fun _ => CallInvalidBrandMetadata config)
               (invalid_brand_metadata env config) ;;
  if (invalid : bool) then
    logging_error
      ("The Extract Brand Metadata option is disabled and no brand details were defined. "
       +:+ nl) ;;
    logging_error
      ("Please enable the option or define brand details. " +:+ nl)
  else
    start_time <- read_clock env ;;
    logging_info ("Starting ABCD assessment... " +:+ nl) ;;
    (if truthy (video_uris config)
     then execute_abcd_assessment_for_videos env config ;;
          logging_info ("Finished ABCD assessment. " +:+ nl)
     else logging_info ("There are no videos to process. " +:+ nl)) ;;
    now <- read_clock env ;;
    logging_info ("ABCD assessment took - " +:+
                  str_mins cli now start_time +:+ " mins. - " +:+ nl).

(** [main]: the function returns [None] on every path. *)
Definition main (env : Env') (cli : CliEnv)
    (arg_list : option (list string)) : M' unit :=
  try_except (main_block env cli arg_list)
    (fun ex =>
       logging_error ("ERROR: " +:+ exc_str ex) ;;
       print_exc ex).

End Cli.

Arguments CliEnv : clear implicits.

(** ** Further observations *)

Section MoreObservations.

Context {World PyObj EvaluatedFeature : Type}.

Local Abbreviation M' := (M World PyObj EvaluatedFeature).
Local Abbreviation Call' := (Call PyObj EvaluatedFeature).

(** What the reporting step does with one feature sequence: the report
    call when there is something to show, the note otherwise. *)
Definition report_call (config : Configuration) (video_uri : string)
    (features : list EvaluatedFeature) (note : string) : Call' :=
  match features with
  | [] => LoggingInfo note
  | _ :: _ => CallPrintAbcdAssessment (brand_name config) video_uri features
  end.

(** The locators of the assessment records constructed, in order. *)
Definition assessed_uris (l : list Call') : list string :=
  va_video_uri <$> assessments l.

(** The calls of an iteration that runs to its end, in order, given the
    two feature sequences. *)
Definition iteration_calls (config : Configuration) (video_uri : string)
    (long_form shorts : list EvaluatedFeature) : list Call' :=
  [LoggingInfo
     ("Processing ABCD Assessment for video " +:+ video_uri +:+ "...")]
  ++ (if use_annotations config
         && provider_type_eqb (creative_provider_type config) GCS
      then [CallGenerateVideoAnnotations config video_uri] else [])
  ++ (if run_long_form_abcd config
         && provider_type_eqb (creative_provider_type config) GCS
      then [CallTrimVideo config video_uri] else [])
  ++ (if run_long_form_abcd config
      then [CallEvaluateFeatures config video_uri LONG_FORM_ABCD
              (Returned long_form)]
      else [])
  ++ (if run_shorts config
      then [CallEvaluateFeatures config video_uri SHORTS (Returned shorts)]
      else [])
  ++ [NewVideoAssessment
        {| va_brand_name := brand_name config;
           va_video_uri := video_uri;
           long_form_abcd_evaluated_features := long_form;
           shorts_evaluated_features := shorts;
           va_config := config |};
      report_call config video_uri long_form
        "There are not Full ABCD evaluated features results to display.";
      report_call config video_uri shorts
        "There are not Shorts evaluated features results to display.";
      CallRemoveLocalVideoFiles].

(** A record carries the brand name and the configuration of the run. *)
Definition of_run (config : Configuration)
    (va : VideoAssessment EvaluatedFeature) : Prop :=
  va_brand_name va = brand_name config /\ va_config va = config.

(** [captures m]: run with both streams on the buffer, [m] leaves them
    there and only adds to the buffer. *)
Definition captures {A} (m : M' A) : Prop :=
  forall s,
    sys_stdout s = Buffer -> sys_stderr s = Buffer ->
    sys_stdout (m s).2 = Buffer /\ sys_stderr (m s).2 = Buffer
    /\ exists txt, buffer (m s).2 = buffer s +:+ txt.

End MoreObservations.

Section Entry.

Context {World PyObj EvaluatedFeature Time : Type}.

(** The state in which [analyse] enters the orchestrator: the buffer is
    fresh, both streams are on it, the configuration has been built and
    found valid, the clock has been read and the "Starting" line has been
    printed. *)
Definition orchestrator_entry (env : Env World PyObj EvaluatedFeature Time)
    (args : RunArgs PyObj) (config : Configuration)
    (s : St World PyObj EvaluatedFeature) : St World PyObj EvaluatedFeature :=
  let r1 := build_custom_config env args (world s) in
  let sa := after_call (CallBuildCustomConfig args) r1
              (set_streams Buffer Buffer (new_buffer s)) in
  let r2 := invalid_brand_metadata env config (world sa) in
  let sb := after_call (CallInvalidBrandMetadata config) r2 sa in
  write Buffer (("Starting ABCD assessment..." +:+ nl) +:+ nl)
    (set_world (time_time env (world sb)).2 sb).

End Entry.

Module CliFixtures.

(** The parser hands the argument list on, the configuration under test is
    built whatever the arguments. *)
Definition cli_of (config : Configuration) : CliEnv nat nat (list string) :=
  {| parse_args := fun l w => Fixtures.replies (default [] l) "" w;
     build_custom_config_from_args := fun _ w => Fixtures.replies config "" w;
     str_mins := fun _ _ => "0.0" |}.

(** A parser that raises. *)
Definition cli_failing : CliEnv nat nat (list string) :=
  {| parse_args := fun _ w => Fixtures.fails w;
     build_custom_config_from_args :=
       fun _ w => Fixtures.replies Fixtures.batch_config "" w;
     str_mins := fun _ _ => "0.0" |}.

(** The collaborators of [Fixtures.env_of], except that the registry has
    no provider for the configured type and raises. *)
Definition env_failing_provider (config : Configuration)
    : Env nat string string nat :=
  {| build_custom_config :=
       build_custom_config (Fixtures.env_of config false);
     invalid_brand_metadata :=
       invalid_brand_metadata (Fixtures.env_of config false);
     get_provider := fun _ w => Fixtures.fails w;
     generate_video_annotations :=
       generate_video_annotations (Fixtures.env_of config false);
     trim_video := trim_video (Fixtures.env_of config false);
     evaluate_features := evaluate_features (Fixtures.env_of config false);
     print_abcd_assessment :=
       print_abcd_assessment (Fixtures.env_of config false);
     remove_local_video_files :=
       remove_local_video_files (Fixtures.env_of config false);
     time_time := fun w => (w, S w);
     format_mins := fun _ _ => "0.00" |}.

(** A batch of two consistent locators. *)
Definition good_batch : list string :=
  ["gs://bucket/video1.mp4"; "gs://bucket/video3.mp4"].

Definition good_config : Configuration :=
  Fixtures.config_of GCS true true true (Some good_batch) "Acme".

End CliFixtures.

(** * Properties *)

(** ** Strings *)

Lemma append_nil_l (b : string) : "" +:+ b = b.
Proof. reflexivity. Qed.

Lemma append_cons (x : ascii) (a b : string) :
  String x a +:+ b = String x (a +:+ b).
Proof. reflexivity. Qed.

Lemma append_assoc (a b c : string) : (a +:+ b) +:+ c = a +:+ (b +:+ c).
Proof.
  induction a as [|x a IH]; [reflexivity|].
  rewrite !append_cons. now f_equal.
Qed.

Lemma append_nil_r (a : string) : a +:+ "" = a.
Proof.
  induction a as [|x a IH]; [reflexivity|].
  rewrite append_cons. now f_equal.
Qed.

Lemma startswith_spec (s p : string) :
  startswith s p = true <-> exists b, s = p +:+ b.
Proof.
  revert s. induction p as [|c p IH]; intros s; cbn [startswith].
  - split; [intros _; now exists s | reflexivity].
  - destruct s as [|d s].
    + split; [discriminate | intros [b Hb]; discriminate].
    + destruct (Ascii.eqb_spec c d) as [->|Hne].
      * rewrite IH. split; intros [b Hb]; exists b.
        -- now rewrite Hb.
        -- rewrite append_cons in Hb. now injection Hb.
      * split; [discriminate |].
        intros [b Hb]. rewrite append_cons in Hb. injection Hb; congruence.
Qed.

Lemma str_in_spec (sub s : string) :
  str_in sub s = true <-> Substring sub s.
Proof.
  unfold Substring. induction s as [|d s IH]; cbn [str_in].
  - rewrite orb_false_r, startswith_spec. split.
    + intros [b Hb]. now exists "", b.
    + intros [[|x a] [b Hb]]; [now exists b | discriminate].
  - rewrite orb_true_iff, startswith_spec, IH. split.
    + intros [[b Hb] | (a & b & Hab)].
      * now exists "", b.
      * exists (String d a), b. rewrite append_cons. now rewrite Hab.
    + intros [[|x a] [b Hb]].
      * left. now exists b.
      * right. exists a, b. rewrite append_cons in Hb. now injection Hb.
Qed.

Lemma startswith_str_in (s p : string) :
  startswith s p = true -> str_in p s = true.
Proof. intros H. destruct s; cbn [str_in]; rewrite H; reflexivity. Qed.

Lemma Substring_here (a sub b : string) : Substring sub (a +:+ sub +:+ b).
Proof. now exists a, b. Qed.

Lemma Substring_app_l (sub s t : string) :
  Substring sub s -> Substring sub (s +:+ t).
Proof.
  intros (a & b & ->). exists a, (b +:+ t). now rewrite !append_assoc.
Qed.

Lemma Substring_app_r (sub s t : string) :
  Substring sub s -> Substring sub (t +:+ s).
Proof.
  intros (a & b & ->). exists (t +:+ a), b. now rewrite !append_assoc.
Qed.

Lemma Substring_refl (s : string) : Substring s s.
Proof. exists "", "". now rewrite append_nil_l, append_nil_r. Qed.

(** ** The monad *)

Section MonadLaws.

Context {World PyObj EvaluatedFeature : Type}.

Local Abbreviation M' := (M World PyObj EvaluatedFeature).
Local Abbreviation St' := (St World PyObj EvaluatedFeature).

Lemma bind_ret_l {A B} (a : A) (k : A -> M' B) (s : St') :
  bind (ret a) k s = k a s.
Proof. reflexivity. Qed.

Lemma bind_assoc {A B C} (m : M' A) (f : A -> M' B) (g : B -> M' C)
    (s : St') :
  bind (bind m f) g s = bind m (fun a => bind (f a) g) s.
Proof. unfold bind. destruct (m s) as [[a|ex] s1]; reflexivity. Qed.

Lemma bind_returned {A B} (m : M' A) (k : A -> M' B) (s s1 : St') (a : A) :
  m s = (Returned a, s1) -> bind m k s = k a s1.
Proof. intros H. unfold bind. now rewrite H. Qed.

Lemma bind_raised {A B} (m : M' A) (k : A -> M' B) (s s1 : St') (ex : Exn) :
  m s = (Raised ex, s1) -> bind m k s = (Raised ex, s1).
Proof. intros H. unfold bind. now rewrite H. Qed.

Lemma bind_returned_inv {A B} (m : M' A) (k : A -> M' B) (s s2 : St')
    (b : B) :
  bind m k s = (Returned b, s2) ->
  exists a s1, m s = (Returned a, s1) /\ k a s1 = (Returned b, s2).
Proof.
  unfold bind. destruct (m s) as [[a|ex] s1]; intros H.
  - now exists a, s1.
  - discriminate.
Qed.

End MonadLaws.

(** ** The loop and its early exit *)

Section Loop.

Context {World PyObj EvaluatedFeature Time : Type}.

Local Abbreviation Env' := (Env World PyObj EvaluatedFeature Time).
Local Abbreviation St' := (St World PyObj EvaluatedFeature).

Variable env : Env'.
Variable config : Configuration.

(** The loop body, with its two tests read as one. *)
Lemma video_loop_cons (u : string) (rest : list string) :
  video_loop env config (u :: rest) =
  if locator_mismatch config u
  then logging_error (mismatch_msg config u)
  else (assess_video env config u ;; video_loop env config rest).
Proof.
  cbn [video_loop]. unfold locator_mismatch, mismatch_msg.
  destruct (creative_provider_type config); cbn [provider_type_eqb andb orb];
    destruct (str_in _ u); reflexivity.
Qed.

Lemma video_loop_mismatch (bad : string) (rest : list string) (s : St') :
  locator_mismatch config bad = true ->
  video_loop env config (bad :: rest) s =
  (Returned tt, record_call (LoggingError (mismatch_msg config bad)) s).
Proof. intros H. rewrite video_loop_cons, H. reflexivity. Qed.

(** A run over a list with a refused locator is the run over the locators
    in front of it, followed by the error record when the loop gets there. *)
Lemma video_loop_split (pre post : list string) (bad : string) (s : St') :
  locator_mismatch config bad = true ->
  video_loop env config (pre ++ bad :: post) s =
  (if forallb (consistent config) pre
   then (video_loop env config pre ;;
         logging_error (mismatch_msg config bad))
   else video_loop env config pre) s.
Proof.
  intros Hbad. revert s. induction pre as [|u pre IH]; intros s.
  - cbn [app forallb]. now rewrite video_loop_mismatch.
  - cbn [app forallb]. unfold consistent at 1.
    rewrite !video_loop_cons.
    destruct (locator_mismatch config u); cbn [negb andb]; [reflexivity|].
    destruct (forallb (consistent config) pre) eqn:Hpre.
    + rewrite bind_assoc.
      destruct (assess_video env config u s) as [[[]|ex] s1] eqn:E.
      * rewrite (bind_returned _ _ _ _ _ E).
        rewrite (bind_returned _ _ _ _ _ E). apply IH.
      * rewrite (bind_raised _ _ _ _ _ E).
        now rewrite (bind_raised _ _ _ _ _ E).
    + destruct (assess_video env config u s) as [[[]|ex] s1] eqn:E.
      * rewrite (bind_returned _ _ _ _ _ E).
        rewrite (bind_returned _ _ _ _ _ E). apply IH.
      * rewrite (bind_raised _ _ _ _ _ E).
        now rewrite (bind_raised _ _ _ _ _ E).
Qed.

(** When the loop over a list with a refused locator comes to its end
    without an exception, its last act was the error record for a refused
    locator, at that index or before. *)
Lemma video_loop_error_last (uris : list string) :
  forall (i : nat) (bad : string) (s s' : St'),
    uris !! i = Some bad ->
    locator_mismatch config bad = true ->
    video_loop env config uris s = (Returned tt, s') ->
    exists (j : nat) (u : string) (s1 : St'),
      j <= i /\ uris !! j = Some u /\ locator_mismatch config u = true /\
      s' = record_call (LoggingError (mismatch_msg config u)) s1.
Proof.
  induction uris as [|u rest IH]; intros i bad s s' Hi Hbad Hrun.
  - discriminate.
  - rewrite video_loop_cons in Hrun.
    destruct (locator_mismatch config u) eqn:Hu.
    + exists 0, u, s. repeat split; [lia | assumption |].
      now injection Hrun.
    + destruct i as [|i]; [cbn in Hi; congruence|].
      apply bind_returned_inv in Hrun as ([] & s1 & _ & Hrest).
      destruct (IH i bad s1 s' Hi Hbad Hrest) as (j & v & s2 & ? & ? & ? & ?).
      exists (S j), v, s2. repeat split; [lia | assumption..].
Qed.

End Loop.

Lemma new_calls_app {World PyObj EvaluatedFeature A}
    (m : M World PyObj EvaluatedFeature A) (s : St World PyObj EvaluatedFeature)
    (new : list (Call PyObj EvaluatedFeature)) :
  calls (m s).2 = calls s ++ new -> new_calls m s = new.
Proof. intros H. unfold new_calls. rewrite H. apply drop_app_length. Qed.


(** C9. The video whose locator is refused receives no processing: its
    iteration adds the error record to the call log and nothing else (the
    world, the streams and the rest of the log are as before), and the loop
    returns there; a run over a list that has such a locator at index [i]
    is the run over the locators before [i], followed by that error record
    if the loop gets to [i]. *)
Theorem refused_locator_is_not_processed {World PyObj EvaluatedFeature Time}
    (env : Env World PyObj EvaluatedFeature Time) (config : Configuration)
    (uris : list string) (i : nat) (bad : string)
    (s : St World PyObj EvaluatedFeature) :
  uris !! i = Some bad ->
  locator_mismatch config bad = true ->
  (forall rest s1,
      video_loop env config (bad :: rest) s1 =
        (Returned tt, record_call (LoggingError (mismatch_msg config bad)) s1)
      /\ new_calls (video_loop env config (bad :: rest)) s1 =
           [LoggingError (mismatch_msg config bad)])
  /\ video_loop env config uris s =
       (if forallb (consistent config) (take i uris)
        then (video_loop env config (take i uris) ;;
              logging_error (mismatch_msg config bad))
        else video_loop env config (take i uris)) s.
Proof.
  intros Hi Hbad. split.
  - intros rest s1. split.
    + now apply video_loop_mismatch.
    + apply new_calls_app. now rewrite video_loop_mismatch.
  - rewrite <- (take_drop_middle _ _ _ Hi) at 1.
    now apply video_loop_split.
Qed.

(** C2, as the code has it. The check lets a locator through for the
    cloud-storage provider exactly when ["gs://"] occurs somewhere in it,
    and for the video-platform provider exactly when
    ["https://www.youtube.com"] occurs somewhere in it; a locator that
    starts with the provider's prefix is let through, and the loop
    processes a locator exactly when the check lets it through. *)
Theorem consistency_check_is_containment (config : Configuration)
    (video_uri : string) :
  (consistent config video_uri = true <->
   match creative_provider_type config with
   | GCS => Substring "gs://" video_uri
   | YOUTUBE => Substring "https://www.youtube.com" video_uri
   end)
  /\ (match creative_provider_type config with
      | GCS => startswith video_uri "gs://"
      | YOUTUBE => startswith video_uri "https://www.youtube.com"
      end = true -> consistent config video_uri = true)
  /\ (forall World PyObj EvaluatedFeature Time
        (env : Env World PyObj EvaluatedFeature Time) rest,
        video_loop env config (video_uri :: rest) =
        if consistent config video_uri
        then (assess_video env config video_uri ;;
              video_loop env config rest)
        else logging_error (mismatch_msg config video_uri)).
Proof.
  assert (Hiff : consistent config video_uri = true <->
                 match creative_provider_type config with
                 | GCS => Substring "gs://" video_uri
                 | YOUTUBE => Substring "https://www.youtube.com" video_uri
                 end).
  { unfold consistent, locator_mismatch.
    destruct (creative_provider_type config);
      cbn [provider_type_eqb andb orb]; rewrite <- str_in_spec;
      destruct (str_in _ video_uri); cbn; split; congruence. }
  split; [exact Hiff | split].
  - intros Hpre. apply Hiff.
    destruct (creative_provider_type config);
      apply str_in_spec, startswith_str_in, Hpre.
  - intros. rewrite video_loop_cons. unfold consistent.
    now destruct (locator_mismatch config video_uri).
Qed.

(** C2 fails as stated: a locator that merely contains the provider's
    prefix further inside is let through, for either provider. *)
Lemma consistency_check_is_not_a_prefix_test :
  ~ (forall config video_uri,
        creative_provider_type config = GCS ->
        (consistent config video_uri = true <->
         startswith video_uri "gs://" = true))
  /\ ~ (forall config video_uri,
          creative_provider_type config = YOUTUBE ->
          (consistent config video_uri = true <->
           startswith video_uri "https://www.youtube.com" = true)).
Proof.
  split; intros H.
  - destruct (H (Fixtures.config_of GCS false true true None "Acme")
                "https://cdn.example.com/gs://bucket/video.mp4" eq_refl)
      as [Himp _].
    discriminate (Himp eq_refl).
  - destruct (H (Fixtures.config_of YOUTUBE false true true None "Acme")
                "gs://bucket/https://www.youtube.com/watch" eq_refl)
      as [Himp _].
    discriminate (Himp eq_refl).
Qed.



Lemma refused_locator_is_not_processed_witness :
  new_calls
    (video_loop (Fixtures.env_of Fixtures.batch_config false)
       Fixtures.batch_config
       ["https://example.com/video2.mp4"; "gs://bucket/video3.mp4"])
    Fixtures.resolved =
  [LoggingError
     (mismatch_msg Fixtures.batch_config "https://example.com/video2.mp4")].
Proof.
  assert (H2 : Fixtures.batch !! 1 = Some "https://example.com/video2.mp4")
    by reflexivity.
  assert (H3 : locator_mismatch Fixtures.batch_config
                 "https://example.com/video2.mp4" = true)
    by (vm_compute; reflexivity).
  exact (proj2 (proj1 (refused_locator_is_not_processed
                         (Fixtures.env_of Fixtures.batch_config false)
                         _ _ _ _ Fixtures.start H2 H3)
                  ["gs://bucket/video3.mp4"] Fixtures.resolved)).
Defined.

(** ** A calculus of outcomes and appended calls *)

Section Traces.

Context {World PyObj EvaluatedFeature : Type}.

Local Abbreviation M' := (M World PyObj EvaluatedFeature).
Local Abbreviation St' := (St World PyObj EvaluatedFeature).
Local Abbreviation Call' := (Call PyObj EvaluatedFeature).

Lemma calls_write (k : Sink) (txt : string) (s : St') :
  calls (write k txt s) = calls s.
Proof. now destruct k. Qed.

Lemma calls_after_call (c : Call') {A} (r : Reply World A) (s : St') :
  calls (after_call c r s) = calls s ++ [c].
Proof. unfold after_call. now rewrite !calls_write. Qed.

Lemma yields_new_calls {A} (m : M' A) Q (s : St') :
  yields m Q -> Q (m s).1 (new_calls m s).
Proof.
  intros H. destruct (H s) as (new & Hnew & HQ).
  now rewrite (new_calls_app _ _ _ Hnew).
Qed.

Lemma yields_conseq {A} (m : M' A) (Q Q' : Outcome A -> list Call' -> Prop) :
  yields m Q -> (forall o new, Q o new -> Q' o new) -> yields m Q'.
Proof.
  intros H HQ s. destruct (H s) as (new & Hnew & Hq). exists new. auto.
Qed.

Lemma yields_ret {A} (a : A) (Q : Outcome A -> list Call' -> Prop) :
  Q (Returned a) [] -> yields (ret a : M' A) Q.
Proof. intros H s. exists []. cbn. now rewrite app_nil_r. Qed.

Lemma yields_print (txt : string) (Q : Outcome unit -> list Call' -> Prop) :
  Q (Returned tt) [] -> yields (print txt : M' unit) Q.
Proof. intros H s. exists []. cbn. now rewrite calls_write, app_nil_r. Qed.

Lemma yields_logging_info (msg : string)
    (Q : Outcome unit -> list Call' -> Prop) :
  Q (Returned tt) [LoggingInfo msg] -> yields (logging_info msg : M' unit) Q.
Proof. intros H s. now exists [LoggingInfo msg]. Qed.

Lemma yields_logging_error (msg : string)
    (Q : Outcome unit -> list Call' -> Prop) :
  Q (Returned tt) [LoggingError msg] -> yields (logging_error msg : M' unit) Q.
Proof. intros H s. now exists [LoggingError msg]. Qed.

Lemma yields_new_video_assessment (va : VideoAssessment EvaluatedFeature)
    (Q : Outcome _ -> list Call' -> Prop) :
  Q (Returned va) [NewVideoAssessment va] ->
  yields (new_video_assessment va : M' _) Q.
Proof. intros H s. now exists [NewVideoAssessment va]. Qed.

Lemma yields_invoke {A} (c : Outcome A -> Call') (f : World -> Reply World A)
    (Q : Outcome A -> list Call' -> Prop) :
  (forall o, Q o [c o]) -> yields (invoke c f) Q.
Proof.
  intros H s. exists [c (reply_outcome (f (world s)))]. split.
  - unfold invoke. cbv zeta. cbn [fst snd]. apply calls_after_call.
  - apply H.
Qed.

Lemma yields_bind {A B} (m : M' A) (k : A -> M' B)
    (Q : Outcome B -> list Call' -> Prop) :
  yields m (fun o n1 =>
              match o with
              | Returned a => yields (k a) (fun o2 n2 => Q o2 (n1 ++ n2))
              | Raised ex => Q (Raised ex) n1
              end) ->
  yields (bind m k) Q.
Proof.
  intros H s. destruct (H s) as (n1 & H1 & Hq). unfold bind.
  destruct (m s) as [[a|ex] s1]; cbn [fst snd] in *.
  - destruct (Hq s1) as (n2 & H2 & Hq2). exists (n1 ++ n2).
    split; [|assumption]. now rewrite H2, H1, app_assoc.
  - now exists n1.
Qed.

Lemma yields_if {A} (b : bool) (m1 m2 : M' A)
    (Q : Outcome A -> list Call' -> Prop) :
  (b = true -> yields m1 Q) -> (b = false -> yields m2 Q) ->
  yields (if b then m1 else m2) Q.
Proof. destruct b; auto. Qed.

End Traces.

Section StateFacts.

Context {World PyObj EvaluatedFeature : Type}.

Local Abbreviation St' := (St World PyObj EvaluatedFeature).

Lemma world_write (k : Sink) (txt : string) (s : St') :
  world (write k txt s) = world s.
Proof. now destruct k. Qed.

Lemma sys_stdout_write (k : Sink) (txt : string) (s : St') :
  sys_stdout (write k txt s) = sys_stdout s.
Proof. now destruct k. Qed.

Lemma sys_stderr_write (k : Sink) (txt : string) (s : St') :
  sys_stderr (write k txt s) = sys_stderr s.
Proof. now destruct k. Qed.

Lemma world_after_call (c : Call PyObj EvaluatedFeature) {A}
    (r : Reply World A) (s : St') :
  world (after_call c r s) = reply_world r.
Proof. unfold after_call. now rewrite !world_write. Qed.

End StateFacts.

(** Backward symbolic execution of a straight-line program. *)
Ltac yields_step :=
  lazymatch goal with
  | |- yields (bind _ _) _ => apply yields_bind
  | |- yields (ret _) _ => apply yields_ret
  | |- yields (print _) _ => apply yields_print
  | |- yields (logging_info _) _ => apply yields_logging_info
  | |- yields (logging_error _) _ => apply yields_logging_error
  | |- yields (new_video_assessment _) _ => apply yields_new_video_assessment
  | |- yields (invoke _ _) _ => apply yields_invoke; intros [?|?]
  | |- yields (if ?b then _ else _) _ =>
      apply yields_if; let H := fresh "Hb" in intros H
  end.


(** ** One iteration of the loop *)

Section Iteration.

Context {World PyObj EvaluatedFeature Time : Type}.

Variable env : Env World PyObj EvaluatedFeature Time.
Variable config : Configuration.
Variable video_uri : string.

Local Abbreviation is_gcs :=
  (provider_type_eqb (creative_provider_type config) GCS).

(** The annotation generator is called once if its gate is open, and not
    at all otherwise, whatever happens later in the iteration. *)
Lemma assess_video_annotation_calls :
  yields (assess_video env config video_uri)
    (fun _ new =>
       List.filter is_annotation_call new =
       if use_annotations config && is_gcs
       then [CallGenerateVideoAnnotations config video_uri] else []).
Proof.
  unfold assess_video. repeat yields_step.
  all: match goal with
       | H : use_annotations config && _ = _ |- _ => rewrite H; reflexivity
       end.
Qed.

(** The trimmer is called once if its gate is open, and not at all
    otherwise, unless the iteration ended in the annotation generator. *)
Lemma assess_video_trim_calls :
  yields (assess_video env config video_uri)
    (fun o new =>
       List.filter is_trim_call new =
         (if run_long_form_abcd config && is_gcs
          then [CallTrimVideo config video_uri] else [])
       \/ (exists ex, o = Raised ex
           /\ last new = Some (CallGenerateVideoAnnotations config video_uri)
           /\ List.filter is_trim_call new = [])).
Proof.
  unfold assess_video. repeat yields_step.
  all: first
         [ left;
           match goal with
           | H : run_long_form_abcd config && _ = _ |- _ =>
               rewrite H; reflexivity
           end
         | right; eexists; repeat split; reflexivity ].
Qed.

(** The cleanup is the last call of a completed iteration and is made once
    there; in no iteration is it followed by another call or made twice. *)
Lemma assess_video_cleanup :
  yields (assess_video env config video_uri)
    (fun o new =>
       (o = Returned tt ->
        last new = Some CallRemoveLocalVideoFiles
        /\ List.filter is_cleanup_call new = [CallRemoveLocalVideoFiles])
       /\ (List.filter is_cleanup_call new = []
           \/ (last new = Some CallRemoveLocalVideoFiles
               /\ List.filter is_cleanup_call new =
                    [CallRemoveLocalVideoFiles]))).
Proof.
  unfold assess_video. repeat yields_step.
  all: split;
         [ intros Ho; first [discriminate Ho | split; reflexivity]
         | first [left; reflexivity | right; split; reflexivity] ].
Qed.

End Iteration.

Section LoopCleanup.

Context {World PyObj EvaluatedFeature Time : Type}.

Variable env : Env World PyObj EvaluatedFeature Time.
Variable config : Configuration.

(** A loop over consistent locators that ends without an exception has
    called the cleanup once per locator. *)
Lemma video_loop_cleanup_count (uris : list string) :
  yields (video_loop env config uris)
    (fun o new =>
       o = Returned tt ->
       forallb (consistent config) uris = true ->
       List.filter is_cleanup_call new =
       replicate (length uris) CallRemoveLocalVideoFiles).
Proof.
  induction uris as [|u rest IH].
  - apply yields_ret. reflexivity.
  - rewrite video_loop_cons. cbn [forallb]. unfold consistent at 1.
    destruct (locator_mismatch config u) eqn:Hu; cbn [negb andb].
    + apply yields_logging_error. discriminate.
    + apply yields_bind.
      eapply yields_conseq; [apply assess_video_cleanup|].
      intros [[]|ex] n1 [Hret _]; [|discriminate].
      eapply yields_conseq; [apply IH|].
      intros o2 n2 Hrest Ho2 Hall.
      destruct (Hret eq_refl) as [_ Hone].
      rewrite List.filter_app, Hone, (Hrest Ho2 Hall). reflexivity.
Qed.

End LoopCleanup.

(** C5, as the code has it. In the iteration of a video whose locator
    passed the check, the annotation generator is called (once, with this
    configuration and locator) exactly when [use_annotations] is set and
    the provider is cloud storage; the trimmer is called (once) exactly
    when [run_long_form_abcd] is set and the provider is cloud storage,
    unless the iteration ended in an exception of the annotation generator,
    in which case it is not called; a video-platform source receives
    neither step, whatever the flags. *)
Theorem preprocessing_is_gated {World PyObj EvaluatedFeature Time}
    (env : Env World PyObj EvaluatedFeature Time) (config : Configuration)
    (video_uri : string) (s : St World PyObj EvaluatedFeature) :
  consistent config video_uri = true ->
  let o := (assess_video env config video_uri s).1 in
  let new := new_calls (assess_video env config video_uri) s in
  (forall rest,
      video_loop env config (video_uri :: rest) s =
      (assess_video env config video_uri ;; video_loop env config rest) s)
  /\ List.filter is_annotation_call new =
       (if use_annotations config
           && provider_type_eqb (creative_provider_type config) GCS
        then [CallGenerateVideoAnnotations config video_uri] else [])
  /\ (List.filter is_trim_call new =
        (if run_long_form_abcd config
            && provider_type_eqb (creative_provider_type config) GCS
         then [CallTrimVideo config video_uri] else [])
      \/ (exists ex, o = Raised ex
          /\ last new = Some (CallGenerateVideoAnnotations config video_uri)
          /\ List.filter is_trim_call new = []))
  /\ (creative_provider_type config = YOUTUBE ->
      List.filter is_annotation_call new = []
      /\ List.filter is_trim_call new = []).
Proof.
  intros Hok o new.
  pose proof (yields_new_calls _ _ s
                (assess_video_annotation_calls env config video_uri)) as Hann.
  pose proof (yields_new_calls _ _ s
                (assess_video_trim_calls env config video_uri)) as Htrim.
  cbv beta in Hann, Htrim. fold new in Hann, Htrim. fold o in Htrim.
  repeat split; try assumption.
  - intros rest. rewrite video_loop_cons. unfold consistent in Hok.
    now destruct (locator_mismatch config video_uri).
  - rewrite Hann, H. cbn. now rewrite andb_false_r.
  - destruct Htrim as [Ht | (ex & _ & _ & Ht)]; [|exact Ht].
    rewrite Ht, H. cbn. now rewrite andb_false_r.
Qed.

(** C5 fails as stated. A video of the batch whose locator is refused gets
    no annotation call although [use_annotations] is set and the provider
    is cloud storage; and a video whose annotation generation raises gets
    no trimming although [run_long_form_abcd] is set and the provider is
    cloud storage. *)
Lemma preprocessing_not_for_every_video :
  (In "https://example.com/video2.mp4" Fixtures.batch
   /\ use_annotations Fixtures.batch_config
      && provider_type_eqb (creative_provider_type Fixtures.batch_config) GCS
      = true
   /\ List.filter
        (fun c =>
           match c with
           | CallGenerateVideoAnnotations _ u =>
               String.eqb u "https://example.com/video2.mp4"
           | _ => false
           end)
        (new_calls
           (execute_abcd_assessment_for_videos
              (Fixtures.env_of Fixtures.batch_config false)
              Fixtures.batch_config)
           Fixtures.start) = [])
  /\ (run_long_form_abcd Fixtures.batch_config
      && provider_type_eqb (creative_provider_type Fixtures.batch_config) GCS
      = true
      /\ List.filter is_trim_call
           (new_calls
              (video_loop (Fixtures.env_failing_annotations Fixtures.batch_config)
                 Fixtures.batch_config ["gs://bucket/video1.mp4"])
              Fixtures.resolved) = []).
Proof.
  split; [split; [|split] | split].
  - right. left. reflexivity.
  - reflexivity.
  - vm_compute. reflexivity.
  - reflexivity.
  - vm_compute. reflexivity.
Qed.

Lemma preprocessing_is_gated_witness :
  List.filter is_annotation_call
    (new_calls
       (assess_video (Fixtures.env_of Fixtures.batch_config false)
          Fixtures.batch_config "gs://bucket/video1.mp4")
       Fixtures.resolved) =
  [CallGenerateVideoAnnotations Fixtures.batch_config
     "gs://bucket/video1.mp4"].
Proof.
  assert (Hok : consistent Fixtures.batch_config "gs://bucket/video1.mp4"
                = true) by (vm_compute; reflexivity).
  exact (proj1 (proj2 (preprocessing_is_gated
                         (Fixtures.env_of Fixtures.batch_config false)
                         Fixtures.batch_config "gs://bucket/video1.mp4"
                         Fixtures.resolved Hok))).
Defined.

Section Evaluation.

Context {World PyObj EvaluatedFeature Time : Type}.

Local Abbreviation St' := (St World PyObj EvaluatedFeature).
Local Abbreviation Call' := (Call PyObj EvaluatedFeature).

Lemma invoke_returned_inv {A} (c : Outcome A -> Call')
    (f : World -> Reply World A) (s s1 : St') (a : A) :
  invoke c f s = (Returned a, s1) ->
  reply_outcome (f (world s)) = Returned a
  /\ world s1 = reply_world (f (world s))
  /\ calls s1 = calls s ++ [c (Returned a)].
Proof.
  unfold invoke. cbv zeta. intros H. injection H as Ho <-.
  now rewrite world_after_call, calls_after_call, Ho.
Qed.

(** A preprocessing step behind its gate. *)
Lemma gated_step_inv (b : bool) (c : Call') (f : World -> Reply World unit)
    (s s1 : St') (a : unit) :
  (if b then invoke (fun _ => c) f else ret tt) s = (Returned a, s1) ->
  world s1 = (if b then reply_world (f (world s)) else world s)
  /\ calls s1 = calls s ++ (if b then [c] else []).
Proof.
  destruct b; intros H.
  - now apply invoke_returned_inv in H as (_ & Hw & Hc).
  - injection H as _ <-. now rewrite app_nil_r.
Qed.

(** The evaluation of one track behind its flag. *)
Lemma gated_evaluation_inv (b : bool)
    (c : Outcome (list EvaluatedFeature) -> Call')
    (f : World -> Reply World (list EvaluatedFeature))
    (s s1 : St') (l : list EvaluatedFeature) :
  (if b then invoke c f else ret []) s = (Returned l, s1) ->
  (if b then reply_outcome (f (world s)) = Returned l else l = [])
  /\ world s1 = (if b then reply_world (f (world s)) else world s)
  /\ calls s1 = calls s ++ (if b then [c (Returned l)] else []).
Proof.
  destruct b; intros H.
  - now apply invoke_returned_inv in H.
  - injection H as <- <-. now rewrite app_nil_r.
Qed.

(** The report of one track, or the message that there is none. *)
Lemma report_step_inv (b : bool) (c : Call') (f : World -> Reply World unit)
    (msg : string) (s s1 : St') (a : unit) :
  (if b then invoke (fun _ => c) f else logging_info msg) s
    = (Returned a, s1) ->
  calls s1 = calls s ++ [if b then c else LoggingInfo msg].
Proof.
  destruct b; intros H.
  - now apply invoke_returned_inv in H as (_ & _ & Hc).
  - now injection H as _ <-.
Qed.

Lemma assessments_app (l1 l2 : list Call') :
  assessments (l1 ++ l2) = assessments l1 ++ assessments l2.
Proof.
  induction l1 as [|c l1 IH]; [reflexivity|].
  destruct c; cbn; now rewrite IH.
Qed.

End Evaluation.

(** C6. Every video that completes its iteration has had one assessment
    record constructed, with both feature fields: the field of a track
    whose flag is off is the empty sequence, and the field of a track whose
    flag is on is the sequence that the evaluation service returns for
    that category, called where the iteration calls it (after the gated
    preprocessing, the shorts track after the long-form one). *)
Theorem assessment_has_both_tracks {World PyObj EvaluatedFeature Time}
    (env : Env World PyObj EvaluatedFeature Time) (config : Configuration)
    (video_uri : string) (s : St World PyObj EvaluatedFeature) :
  (assess_video env config video_uri s).1 = Returned tt ->
  exists long_form shorts,
    assessments (new_calls (assess_video env config video_uri) s) =
      [{| va_brand_name := brand_name config;
          va_video_uri := video_uri;
          long_form_abcd_evaluated_features := long_form;
          shorts_evaluated_features := shorts;
          va_config := config |}]
    /\ (if run_long_form_abcd config
        then reply_outcome (long_form_reply env config video_uri (world s))
             = Returned long_form
        else long_form = [])
    /\ (if run_shorts config
        then reply_outcome (shorts_reply env config video_uri (world s))
             = Returned shorts
        else shorts = []).
Proof.
  intros Hdone.
  destruct (assess_video env config video_uri s) as [o s'] eqn:Hrun.
  cbn [fst] in Hdone. subst o.
  unfold new_calls. rewrite Hrun. cbn [snd].
  unfold assess_video in Hrun. rename Hrun into H.
  apply bind_returned_inv in H as ([] & sa & Ha & H).
  injection Ha as <-.
  apply bind_returned_inv in H as ([] & sb & Hb & H).
  unfold print in Hb. injection Hb as <-.
  apply bind_returned_inv in H as ([] & sc & Hc & H).
  apply gated_step_inv in Hc as [Hwc Hcc].
  rewrite world_write in Hwc. rewrite calls_write in Hcc.
  cbn [world calls record_call] in Hwc, Hcc.
  apply bind_returned_inv in H as ([] & sd & Hd & H).
  apply gated_step_inv in Hd as [Hwd Hcd].
  apply bind_returned_inv in H as (long_form & se & He & H).
  apply gated_evaluation_inv in He as (Hlong & Hwe & Hce).
  apply bind_returned_inv in H as (shorts & sf & Hf & H).
  apply gated_evaluation_inv in Hf as (Hshorts & Hwf & Hcf).
  apply bind_returned_inv in H as (va & sg & Hg & H).
  injection Hg as <- <-.
  apply bind_returned_inv in H as ([] & sh & Hh & H).
  apply report_step_inv in Hh.
  apply bind_returned_inv in H as ([] & si & Hi & H).
  apply report_step_inv in Hi.
  apply invoke_returned_inv in H as (_ & _ & Hlast).
  cbn [calls record_call] in Hh.
  exists long_form, shorts.
  unfold long_form_reply, shorts_reply, evaluation_world. cbv zeta.
  rewrite Hwc in Hwd. rewrite Hwd in Hlong, Hwe. rewrite Hwe in Hshorts.
  split; [|split; assumption].
  rewrite Hlast, Hi, Hh, Hcf, Hce, Hcd, Hcc, <- !app_assoc.
  rewrite drop_app_length, !assessments_app.
  repeat match goal with
         | |- context [if ?b then _ else _] => destruct b
         end; reflexivity.
Qed.

Lemma assessment_has_both_tracks_witness :
  assessments
    (new_calls
       (assess_video (Fixtures.env_of Fixtures.batch_config false)
          Fixtures.batch_config "gs://bucket/video1.mp4")
       Fixtures.resolved) =
  [{| va_brand_name := "Acme";
      va_video_uri := "gs://bucket/video1.mp4";
      long_form_abcd_evaluated_features := ["A1"; "B2"];
      shorts_evaluated_features := ["S1"];
      va_config := Fixtures.batch_config |}].
Proof.
  assert (Hdone :
            (assess_video (Fixtures.env_of Fixtures.batch_config false)
               Fixtures.batch_config "gs://bucket/video1.mp4"
               Fixtures.resolved).1 = Returned tt)
    by (vm_compute; reflexivity).
  destruct (assessment_has_both_tracks _ _ _ _ Hdone)
    as (long_form & shorts & Hva & Hlong & Hshorts).
  cbn in Hlong, Hshorts.
  injection Hlong as <-. injection Hshorts as <-. exact Hva.
Defined.

(** C7, as the code has it. In the iteration of a video whose locator
    passed the check and in which no collaborator raises, the cleanup is
    called once, as the last call of the iteration and whatever the flags
    and the evaluation results, so before the next video is taken up; in
    no iteration is it called twice or followed by another call; a loop
    over consistent locators that ends without an exception has called it
    once per video. *)
Theorem cleanup_ends_each_completed_iteration
    {World PyObj EvaluatedFeature Time}
    (env : Env World PyObj EvaluatedFeature Time) (config : Configuration)
    (video_uri : string) (s : St World PyObj EvaluatedFeature) :
  consistent config video_uri = true ->
  (assess_video env config video_uri s).1 = Returned tt ->
  let new := new_calls (assess_video env config video_uri) s in
  (forall rest,
      video_loop env config (video_uri :: rest) s =
      (assess_video env config video_uri ;; video_loop env config rest) s)
  /\ last new = Some CallRemoveLocalVideoFiles
  /\ List.filter is_cleanup_call new = [CallRemoveLocalVideoFiles]
  /\ (forall u s1,
        let new1 := new_calls (assess_video env config u) s1 in
        List.filter is_cleanup_call new1 = []
        \/ (last new1 = Some CallRemoveLocalVideoFiles
            /\ List.filter is_cleanup_call new1 =
                 [CallRemoveLocalVideoFiles]))
  /\ (forall uris s1,
        forallb (consistent config) uris = true ->
        (video_loop env config uris s1).1 = Returned tt ->
        List.filter is_cleanup_call
          (new_calls (video_loop env config uris) s1) =
        replicate (length uris) CallRemoveLocalVideoFiles).
Proof.
  intros Hok Hdone new.
  pose proof (yields_new_calls _ _ s
                (assess_video_cleanup env config video_uri)) as [Hret _].
  fold new in Hret. destruct (Hret Hdone) as [Hlast Hone].
  repeat split; try assumption.
  - intros rest. rewrite video_loop_cons. unfold consistent in Hok.
    now destruct (locator_mismatch config video_uri).
  - intros u s1 new1.
    apply (yields_new_calls _ _ s1 (assess_video_cleanup env config u)).
  - intros uris s1 Hall Hrun.
    now apply (yields_new_calls _ _ s1
                 (video_loop_cleanup_count env config uris)).
Qed.

(** C7 fails as stated. The iteration of a refused locator records the
    error and makes no cleanup call; an iteration in which the evaluation
    service raises makes no cleanup call either. *)
Lemma cleanup_is_not_unconditional :
  (new_calls
     (video_loop (Fixtures.env_of Fixtures.batch_config false)
        Fixtures.batch_config ["https://example.com/video2.mp4"])
     Fixtures.start =
   [LoggingError
      (mismatch_msg Fixtures.batch_config "https://example.com/video2.mp4")]
   /\ List.filter is_cleanup_call
        (new_calls
           (video_loop (Fixtures.env_of Fixtures.batch_config false)
              Fixtures.batch_config ["https://example.com/video2.mp4"])
           Fixtures.start) = [])
  /\ ((video_loop (Fixtures.env_failing_evaluation Fixtures.batch_config)
         Fixtures.batch_config ["gs://bucket/video1.mp4"]
         Fixtures.start).1 = Raised Fixtures.boom
      /\ List.filter is_cleanup_call
           (new_calls
              (video_loop
                 (Fixtures.env_failing_evaluation Fixtures.batch_config)
                 Fixtures.batch_config ["gs://bucket/video1.mp4"])
              Fixtures.start) = []).
Proof.
  repeat split; vm_compute; reflexivity.
Qed.

Lemma cleanup_ends_each_completed_iteration_witness :
  last (new_calls
          (assess_video (Fixtures.env_of Fixtures.batch_config false)
             Fixtures.batch_config "gs://bucket/video1.mp4")
          Fixtures.resolved) =
  Some CallRemoveLocalVideoFiles.
Proof.
  assert (Hok : consistent Fixtures.batch_config "gs://bucket/video1.mp4"
                = true) by (vm_compute; reflexivity).
  assert (Hdone :
            (assess_video (Fixtures.env_of Fixtures.batch_config false)
               Fixtures.batch_config "gs://bucket/video1.mp4"
               Fixtures.resolved).1 = Returned tt)
    by (vm_compute; reflexivity).
  exact (proj1 (proj2 (cleanup_ends_each_completed_iteration
                         _ _ _ _ Hok Hdone))).
Defined.

(** ** Two runs with stubbed collaborators *)

Section Determinism.

Context {World PyObj EvaluatedFeature Time : Type}.

Local Abbreviation M' := (M World PyObj EvaluatedFeature).
Local Abbreviation St' := (St World PyObj EvaluatedFeature).
Local Abbreviation Call' := (Call PyObj EvaluatedFeature).

Lemma uniform_new_calls {A} (m : M' A) (s1 s2 : St') :
  uniform m -> (m s1).1 = (m s2).1 /\ new_calls m s1 = new_calls m s2.
Proof.
  intros H. destruct (H s1 s2) as (new & Ho & H1 & H2). split; [exact Ho|].
  now rewrite (new_calls_app _ _ _ H1), (new_calls_app _ _ _ H2).
Qed.

Lemma uniform_ret {A} (a : A) : uniform (ret a : M' A).
Proof. intros s1 s2. exists []. cbn. now rewrite !app_nil_r. Qed.

Lemma uniform_print (txt : string) : uniform (print txt : M' unit).
Proof.
  intros s1 s2. exists []. cbn. now rewrite !calls_write, !app_nil_r.
Qed.

Lemma uniform_logging_info (msg : string) :
  uniform (logging_info msg : M' unit).
Proof. intros s1 s2. now exists [LoggingInfo msg]. Qed.

Lemma uniform_logging_error (msg : string) :
  uniform (logging_error msg : M' unit).
Proof. intros s1 s2. now exists [LoggingError msg]. Qed.

Lemma uniform_new_video_assessment (va : VideoAssessment EvaluatedFeature) :
  uniform (new_video_assessment va : M' _).
Proof. intros s1 s2. now exists [NewVideoAssessment va]. Qed.

Lemma uniform_invoke {A} (c : Outcome A -> Call')
    (f : World -> Reply World A) :
  stub f -> uniform (invoke c f).
Proof.
  intros Hf s1 s2. exists [c (reply_outcome (f (world s1)))].
  unfold invoke. cbv zeta. cbn [fst snd]. rewrite !calls_after_call.
  now rewrite (Hf (world s2) (world s1)).
Qed.

(** The continuation only has to be uniform on values that [m] returns. *)
Lemma uniform_bind {A B} (m : M' A) (k : A -> M' B) :
  uniform m ->
  (forall a s, (m s).1 = Returned a -> uniform (k a)) ->
  uniform (bind m k).
Proof.
  intros Hm Hk s1 s2. destruct (Hm s1 s2) as (n1 & Ho & H1 & H2).
  pose proof (fun a => Hk a s1) as Hk1. unfold bind.
  destruct (m s1) as [[a|ex] t1], (m s2) as [[b|ex'] t2];
    cbn [fst snd] in *; try discriminate.
  - injection Ho as <-.
    destruct (Hk1 a eq_refl t1 t2) as (n2 & Ho2 & K1 & K2).
    exists (n1 ++ n2). rewrite K1, K2, H1, H2, !app_assoc. now split.
  - injection Ho as ->. exists n1. now repeat split.
Qed.

Lemma uniform_if {A} (b : bool) (m1 m2 : M' A) :
  uniform m1 -> uniform m2 -> uniform (if b then m1 else m2).
Proof. now destruct b. Qed.

Variable env : Env World PyObj EvaluatedFeature Time.
Variable config : Configuration.
Hypothesis env_stubbed : stubbed env.

Lemma uniform_assess_video (video_uri : string) :
  uniform (assess_video env config video_uri).
Proof.
  destruct env_stubbed. unfold assess_video.
  repeat first
    [ apply uniform_bind; [|intros ? ? _]
    | apply uniform_if
    | apply uniform_invoke
    | apply uniform_logging_info
    | apply uniform_print
    | apply uniform_new_video_assessment
    | apply uniform_ret
    | solve [auto] ].
Qed.

Lemma uniform_video_loop (uris : list string) :
  uniform (video_loop env config uris).
Proof.
  induction uris as [|u rest IH].
  - apply uniform_ret.
  - rewrite video_loop_cons. apply uniform_if.
    + apply uniform_logging_error.
    + apply uniform_bind; [apply uniform_assess_video | auto].
Qed.

Lemma uniform_execute :
  uniform (execute_abcd_assessment_for_videos env config).
Proof.
  unfold execute_abcd_assessment_for_videos, creative_uris.
  apply uniform_bind; [|intros; apply uniform_video_loop].
  apply uniform_bind.
  - apply uniform_invoke, (stub_get_provider _ env_stubbed).
  - intros p s Hp. apply uniform_invoke.
    eapply (stub_get_creative_uris _ env_stubbed). exact Hp.
Qed.

End Determinism.




(** ** The run wrapper *)

Section Wrapper.

Context {World PyObj EvaluatedFeature Time : Type}.

Local Abbreviation St' := (St World PyObj EvaluatedFeature).

Variable env : Env World PyObj EvaluatedFeature Time.

(** The redirection is released on every way out of the block. *)
Lemma with_redirect_streams {A} (m : M World PyObj EvaluatedFeature A)
    (s s1 : St') (o : Outcome A) :
  with_redirect m s = (o, s1) ->
  sys_stdout s1 = sys_stdout s /\ sys_stderr s1 = sys_stderr s.
Proof.
  unfold with_redirect.
  destruct (m (set_streams Buffer Buffer s)) as [o' s'].
  intros [= _ <-]. split; reflexivity.
Qed.

(** What the handler and the final [return] make of an instance of
    [Exception] that leaves the block. *)
Lemma analyse_handles (args : RunArgs PyObj) (s s1 : St') (ex : Exn) :
  with_redirect (analyse_block env args) (new_buffer s) = (Raised ex, s1) ->
  exc_is_exception ex = true ->
  analyse env args s =
  (Returned {["logs" := buffer (write (sys_stdout s) ("ERROR: " +:+ exc_str ex +:+ nl) s1)
                        +:+ exc_traceback ex]},
   write Buffer (exc_traceback ex)
     (write (sys_stdout s) ("ERROR: " +:+ exc_str ex +:+ nl) s1)).
Proof.
  intros Hblock Hexc.
  destruct (with_redirect_streams _ _ _ _ Hblock) as [Hout _].
  cbn [sys_stdout new_buffer] in Hout.
  unfold analyse, try_except, bind. rewrite Hblock, Hexc.
  unfold print, print_exc_to_buffer, getvalue, ret. cbn [fst snd].
  rewrite Hout. reflexivity.
Qed.

(** An exception that is not an instance of [Exception] passes the
    [except] clause. *)
Lemma analyse_lets_through (args : RunArgs PyObj) (s s1 : St') (ex : Exn) :
  with_redirect (analyse_block env args) (new_buffer s) = (Raised ex, s1) ->
  exc_is_exception ex = false ->
  analyse env args s = (Raised ex, s1).
Proof.
  intros Hblock Hexc. unfold analyse, try_except, bind.
  now rewrite Hblock, Hexc.
Qed.

End Wrapper.



(** C4. When the configuration is built and [invalid_brand_metadata]
    returns true for it, [analyse] returns the dictionary with the keys
    ["error"] and ["logs"]; the logs are the buffer and contain the
    "invalid" message; and the only collaborators called are the
    configuration builder and the validity test, so that neither the
    provider, nor the preprocessing, nor the evaluation, nor the reporting,
    nor the cleanup has been called. *)
Theorem invalid_brand_metadata_short_circuits
    {World PyObj EvaluatedFeature Time}
    (env : Env World PyObj EvaluatedFeature Time) (args : RunArgs PyObj)
    (s : St World PyObj EvaluatedFeature) (config : Configuration) :
  let r1 := build_custom_config env args (world s) in
  reply_outcome r1 = Returned config ->
  reply_outcome (invalid_brand_metadata env config (reply_world r1))
    = Returned true ->
  exists logs s',
    analyse env args s =
      (Returned (<["error" := "Invalid brand metadata"]> {["logs" := logs]}),
       s')
    /\ logs = buffer s'
    /\ Substring "Invalid brand metadata. Please provide brand details." logs
    /\ calls s' =
         calls s ++ [CallBuildCustomConfig args;
                     CallInvalidBrandMetadata config]
    /\ sys_stdout s' = sys_stdout s.
Proof.
  intros r1 H1 H2.
  unfold analyse, try_except, with_redirect, analyse_block, bind, invoke.
  cbn. fold r1. rewrite H1. cbn. rewrite H2. cbn.
  eexists _, _. split; [reflexivity|]. cbn. repeat split.
  - apply Substring_app_r. do 2 apply Substring_app_l.
    apply Substring_refl.
  - now rewrite <- app_assoc.
Qed.

(** C10. When the configuration is built with a falsy [video_uris] (no
    list, or an empty one) and its brand metadata is valid, [analyse]
    returns the dictionary with the one key ["logs"] (there is no
    ["error"] key); the logs are the buffer and contain the "no videos"
    message; and the only collaborators called are the configuration
    builder and the validity test, so that the orchestrator, whose first
    act is the provider lookup, has not been entered. *)
Theorem no_videos_skips_the_orchestrator {World PyObj EvaluatedFeature Time}
    (env : Env World PyObj EvaluatedFeature Time) (args : RunArgs PyObj)
    (s : St World PyObj EvaluatedFeature) (config : Configuration) :
  let r1 := build_custom_config env args (world s) in
  reply_outcome r1 = Returned config ->
  reply_outcome (invalid_brand_metadata env config (reply_world r1))
    = Returned false ->
  truthy (video_uris config) = false ->
  exists logs s',
    analyse env args s = (Returned {["logs" := logs]}, s')
    /\ ({["logs" := logs]} : gmap string string) !! "error" = None
    /\ logs = buffer s'
    /\ Substring "There are no videos to process." logs
    /\ calls s' =
         calls s ++ [CallBuildCustomConfig args;
                     CallInvalidBrandMetadata config]
    /\ sys_stdout s' = sys_stdout s.
Proof.
  intros r1 H1 H2 Hfalsy.
  unfold analyse, try_except, with_redirect, analyse_block, bind, invoke.
  cbn. fold r1. rewrite H1. cbn. rewrite H2. cbn. rewrite Hfalsy. cbn.
  eexists _, _. split; [reflexivity|]. cbn. repeat split.
  - apply Substring_app_l, Substring_app_r. do 2 apply Substring_app_l.
    apply Substring_refl.
  - now rewrite <- app_assoc.
Qed.


Lemma invalid_brand_metadata_short_circuits_witness :
  exists logs s',
    analyse (Fixtures.env_of Fixtures.batch_config true) Fixtures.no_args
      Fixtures.start =
      (Returned (<["error" := "Invalid brand metadata"]> {["logs" := logs]}),
       s')
    /\ calls s' = [CallBuildCustomConfig Fixtures.no_args;
                   CallInvalidBrandMetadata Fixtures.batch_config].
Proof.
  assert (H1 : reply_outcome
                 (build_custom_config
                    (Fixtures.env_of Fixtures.batch_config true)
                    Fixtures.no_args (world Fixtures.start)) =
               Returned Fixtures.batch_config) by reflexivity.
  assert (H2 : reply_outcome
                 (invalid_brand_metadata
                    (Fixtures.env_of Fixtures.batch_config true)
                    Fixtures.batch_config
                    (reply_world
                       (build_custom_config
                          (Fixtures.env_of Fixtures.batch_config true)
                          Fixtures.no_args (world Fixtures.start)))) =
               Returned true) by reflexivity.
  destruct (invalid_brand_metadata_short_circuits _ _ _ _ H1 H2)
    as (logs & s' & Hrun & _ & _ & Hcalls & _).
  exists logs, s'. split; [exact Hrun | exact Hcalls].
Defined.

Lemma no_videos_skips_the_orchestrator_witness :
  exists logs s',
    analyse_endpoint (Fixtures.env_of Fixtures.no_videos_config false)
      (∅ : gmap string string) Fixtures.start =
      (Returned {["logs" := logs]}, s')
    /\ Substring "There are no videos to process." logs
    /\ calls s' = [CallBuildCustomConfig Fixtures.no_args;
                   CallInvalidBrandMetadata Fixtures.no_videos_config].
Proof.
  assert (H1 : reply_outcome
                 (build_custom_config
                    (Fixtures.env_of Fixtures.no_videos_config false)
                    Fixtures.no_args (world Fixtures.start)) =
               Returned Fixtures.no_videos_config) by reflexivity.
  assert (H2 : reply_outcome
                 (invalid_brand_metadata
                    (Fixtures.env_of Fixtures.no_videos_config false)
                    Fixtures.no_videos_config
                    (reply_world
                       (build_custom_config
                          (Fixtures.env_of Fixtures.no_videos_config false)
                          Fixtures.no_args (world Fixtures.start)))) =
               Returned false) by reflexivity.
  assert (H3 : truthy (video_uris Fixtures.no_videos_config) = false)
    by reflexivity.
  destruct (no_videos_skips_the_orchestrator _ _ _ _ H1 H2 H3)
    as (logs & s' & Hrun & _ & _ & Hmsg & Hcalls & _).
  exists logs, s'. split; [exact Hrun | split; [exact Hmsg | exact Hcalls]].
Defined.

(** * Further properties *)

(** ** The loop as a whole *)

(** X1. The loop over a concatenation of two batches is the loop over the
    first followed by the loop over the second when every locator of the
    first passes the check, and is the loop over the first alone when one
    of them is refused. *)
Theorem video_loop_app {World PyObj EvaluatedFeature Time}
    (env : Env World PyObj EvaluatedFeature Time) (config : Configuration)
    (pre post : list string) (s : St World PyObj EvaluatedFeature) :
  video_loop env config (pre ++ post) s =
  (if forallb (consistent config) pre
   then (video_loop env config pre ;; video_loop env config post)
   else video_loop env config pre) s.
Proof.
  revert s. induction pre as [|u pre IH]; intros s.
  - reflexivity.
  - cbn [app forallb]. unfold consistent at 1. rewrite !video_loop_cons.
    destruct (locator_mismatch config u); cbn [negb andb]; [reflexivity|].
    destruct (assess_video env config u s) as [[[]|ex] s1] eqn:E.
    + rewrite (bind_returned _ _ _ _ _ E), IH.
      destruct (forallb (consistent config) pre).
      * rewrite bind_assoc. now rewrite (bind_returned _ _ _ _ _ E).
      * now rewrite (bind_returned _ _ _ _ _ E).
    + rewrite (bind_raised _ _ _ _ _ E).
      destruct (forallb (consistent config) pre).
      * rewrite bind_assoc. now rewrite (bind_raised _ _ _ _ _ E).
      * now rewrite (bind_raised _ _ _ _ _ E).
Qed.

Lemma video_loop_after_prefix {World PyObj EvaluatedFeature Time}
    (env : Env World PyObj EvaluatedFeature Time) (config : Configuration)
    (pre rest : list string) (s s1 : St World PyObj EvaluatedFeature) :
  forallb (consistent config) pre = true ->
  video_loop env config pre s = (Returned tt, s1) ->
  video_loop env config (pre ++ rest) s = video_loop env config rest s1.
Proof.
  revert s. induction pre as [|u pre IH]; intros s Hall Hrun.
  - cbn in Hrun. now injection Hrun as <-.
  - cbn [forallb] in Hall. apply andb_prop in Hall as [Hu Hall].
    unfold consistent in Hu. apply negb_true_iff in Hu.
    cbn [app]. rewrite video_loop_cons, Hu in *.
    apply bind_returned_inv in Hrun as ([] & s2 & Hu2 & Hrest).
    rewrite (bind_returned _ _ _ _ _ Hu2). now apply IH.
Qed.

(** X2. When the videos before index [k] have been processed and the
    iteration of the video at index [k] raises, the loop raises that
    exception in the state the iteration left: no later video is taken up,
    whatever follows in the list. *)
Theorem exception_aborts_the_batch {World PyObj EvaluatedFeature Time}
    (env : Env World PyObj EvaluatedFeature Time) (config : Configuration)
    (uris : list string) (k : nat) (u : string)
    (s s1 s2 : St World PyObj EvaluatedFeature) (ex : Exn) :
  uris !! k = Some u ->
  forallb (consistent config) (take (S k) uris) = true ->
  video_loop env config (take k uris) s = (Returned tt, s1) ->
  assess_video env config u s1 = (Raised ex, s2) ->
  video_loop env config uris s = (Raised ex, s2)
  /\ (forall later,
        video_loop env config (take (S k) uris ++ later) s = (Raised ex, s2)).
Proof.
  intros Hk Hall Hpre Hu.
  rewrite (take_S_r _ _ _ Hk), forallb_app in Hall.
  apply andb_prop in Hall as [Hall Hcons]. cbn in Hcons.
  rewrite andb_true_r in Hcons. unfold consistent in Hcons.
  apply negb_true_iff in Hcons.
  assert (Hstep : forall rest,
             video_loop env config (take k uris ++ u :: rest) s =
             (Raised ex, s2)).
  { intros rest. rewrite (video_loop_after_prefix _ _ _ _ _ _ Hall Hpre).
    rewrite video_loop_cons, Hcons. now rewrite (bind_raised _ _ _ _ _ Hu). }
  split.
  - rewrite <- (take_drop_middle _ _ _ Hk). apply Hstep.
  - intros later. rewrite (take_S_r _ _ _ Hk), <- app_assoc. apply Hstep.
Qed.

(** ** The calls of an iteration *)

Section IterationTrace.

Context {World PyObj EvaluatedFeature Time : Type}.

Variable env : Env World PyObj EvaluatedFeature Time.
Variable config : Configuration.
Variable video_uri : string.

Lemma assess_video_trace :
  yields (assess_video env config video_uri)
    (fun o new =>
       o = Returned tt ->
       exists long_form shorts,
         new = iteration_calls config video_uri long_form shorts
         /\ (run_long_form_abcd config = false -> long_form = [])
         /\ (run_shorts config = false -> shorts = [])).
Proof.
  unfold assess_video, iteration_calls. repeat yields_step.
  all: intros Ho; try discriminate Ho.
  all: try match goal with
           | H : (0 <? length []) = true |- _ => discriminate H
           end.
  all: repeat match goal with
         | H : (0 <? length ?l) = _ |- _ =>
             is_var l; destruct l; cbn in H; try discriminate H; clear H
         | H : (0 <? length []) = false |- _ => clear H
         end.
  all: lazymatch goal with
       | |- context [NewVideoAssessment
                       (@Build_VideoAssessment _ _ _ ?l ?sh _)] =>
           exists l, sh
       end.
  all: repeat match goal with
         | H : _ && _ = _ |- _ => rewrite H; clear H
         | H : run_long_form_abcd config = _ |- _ => rewrite H; clear H
         | H : run_shorts config = _ |- _ => rewrite H; clear H
         end.
  all: cbn [app]; repeat split; solve [reflexivity | discriminate].
Qed.

End IterationTrace.

(** X3. An iteration that runs to its end makes these calls in this order:
    the "Processing" record, the annotation generator and the trimmer if
    their gates are open, the long-form and the shorts evaluation if
    enabled, the construction of the assessment, for each of the two
    feature sequences the report call if it is not empty and the note
    otherwise, and the cleanup. *)
Theorem completed_iteration_trace {World PyObj EvaluatedFeature Time}
    (env : Env World PyObj EvaluatedFeature Time) (config : Configuration)
    (video_uri : string) (s : St World PyObj EvaluatedFeature) :
  (assess_video env config video_uri s).1 = Returned tt ->
  exists long_form shorts,
    new_calls (assess_video env config video_uri) s =
      iteration_calls config video_uri long_form shorts
    /\ (run_long_form_abcd config = false -> long_form = [])
    /\ (run_shorts config = false -> shorts = []).
Proof.
  intros Hdone.
  pose proof (yields_new_calls _ _ s
                (assess_video_trace env config video_uri)) as H.
  cbv beta in H. exact (H Hdone).
Qed.

Section Assessed.

Context {World PyObj EvaluatedFeature Time : Type}.

Variable env : Env World PyObj EvaluatedFeature Time.
Variable config : Configuration.

Local Abbreviation Call' := (Call PyObj EvaluatedFeature).

Lemma assessed_uris_app (l1 l2 : list Call') :
  assessed_uris (l1 ++ l2) = assessed_uris l1 ++ assessed_uris l2.
Proof. unfold assessed_uris. now rewrite assessments_app, fmap_app. Qed.

(** An iteration constructs at most one record, for its own locator, and
    exactly one when it runs to its end. *)
Lemma assess_video_assessed (u : string) :
  yields (assess_video env config u)
    (fun o new =>
       (o = Returned tt -> assessed_uris new = [u])
       /\ (assessed_uris new = [] \/ assessed_uris new = [u])
       /\ Forall (of_run config) (assessments new)).
Proof.
  unfold assess_video. repeat yields_step.
  all: repeat split;
         first [ intros Ho; first [discriminate Ho | reflexivity]
               | left; reflexivity
               | right; reflexivity
               | repeat constructor ].
Qed.

Lemma video_loop_assessed (uris : list string) :
  yields (video_loop env config uris)
    (fun o new =>
       assessed_uris new `prefix_of` uris
       /\ Forall (of_run config) (assessments new)
       /\ (o = Returned tt ->
           forallb (consistent config) uris = true ->
           assessed_uris new = uris)).
Proof.
  induction uris as [|u rest IH].
  - apply yields_ret. repeat split; [apply prefix_nil | constructor].
  - rewrite video_loop_cons. cbn [forallb]. unfold consistent at 1.
    destruct (locator_mismatch config u) eqn:Hu; cbn [negb andb].
    + apply yields_logging_error.
      repeat split; [apply prefix_nil | constructor | discriminate].
    + apply yields_bind.
      eapply yields_conseq; [apply assess_video_assessed|].
      intros [[]|ex] n1 (Hret & Hsome & Hrun).
      * eapply yields_conseq; [apply IH|].
        intros o2 n2 (Hpre & Hrun2 & Hall).
        rewrite assessed_uris_app, assessments_app, (Hret eq_refl).
        repeat split.
        -- now apply prefix_cons.
        -- now apply Forall_app.
        -- intros Ho2 Hrest. cbn [app]. f_equal. now apply Hall.
      * repeat split; [|assumption|discriminate].
        destruct Hsome as [-> | ->];
          [apply prefix_nil | apply prefix_cons, prefix_nil].
Qed.

End Assessed.

(** X4. In every run of the loop, ended by an exception or not, the
    locators of the assessment records constructed are, in order, an
    initial part of the video list (no video is assessed twice, out of
    order, or without being in the list), and every record carries the
    brand name and the configuration of the run. *)
Theorem assessments_follow_the_batch {World PyObj EvaluatedFeature Time}
    (env : Env World PyObj EvaluatedFeature Time) (config : Configuration)
    (uris : list string) (s : St World PyObj EvaluatedFeature) :
  let new := new_calls (video_loop env config uris) s in
  assessed_uris new `prefix_of` uris
  /\ Forall (of_run config) (assessments new).
Proof.
  intros new.
  destruct (yields_new_calls _ _ s (video_loop_assessed env config uris))
    as (Hpre & Hrun & _).
  split; [exact Hpre | exact Hrun].
Qed.

(** X5. A loop over locators that all pass the check and that ends without
    an exception has constructed one assessment record per video, in the
    order of the list. *)
Theorem completed_batch_assesses_every_video
    {World PyObj EvaluatedFeature Time}
    (env : Env World PyObj EvaluatedFeature Time) (config : Configuration)
    (uris : list string) (s : St World PyObj EvaluatedFeature) :
  forallb (consistent config) uris = true ->
  (video_loop env config uris s).1 = Returned tt ->
  assessed_uris (new_calls (video_loop env config uris) s) = uris.
Proof.
  intros Hall Hdone.
  destruct (yields_new_calls _ _ s (video_loop_assessed env config uris))
    as (_ & _ & Hfull).
  now apply Hfull.
Qed.

(** ** Provider resolution and output capture *)

Section Resolution.

Context {World PyObj EvaluatedFeature Time : Type}.

Variable env : Env World PyObj EvaluatedFeature Time.
Variable config : Configuration.

Lemma creative_uris_calls :
  yields (creative_uris env config)
    (fun o new =>
       (new = [CallGetProvider (creative_provider_type config)]
        /\ exists ex, o = Raised ex)
       \/ new = [CallGetProvider (creative_provider_type config);
                 CallGetCreativeUris config]).
Proof.
  unfold creative_uris. repeat yields_step.
  all: first [right; reflexivity | left; split; [reflexivity | eauto]].
Qed.

End Resolution.

(** X6. When the provider lookup or the resolution of the locators raises,
    the orchestrator raises that exception at once: the only calls made
    are the lookup and, if it was reached, the resolution, and no video is
    touched. *)
Theorem provider_failure_skips_the_batch {World PyObj EvaluatedFeature Time}
    (env : Env World PyObj EvaluatedFeature Time) (config : Configuration)
    (s : St World PyObj EvaluatedFeature) (ex : Exn) :
  (creative_uris env config s).1 = Raised ex ->
  execute_abcd_assessment_for_videos env config s =
    (Raised ex, (creative_uris env config s).2)
  /\ (new_calls (execute_abcd_assessment_for_videos env config) s =
        [CallGetProvider (creative_provider_type config)]
      \/ new_calls (execute_abcd_assessment_for_videos env config) s =
           [CallGetProvider (creative_provider_type config);
            CallGetCreativeUris config]).
Proof.
  intros Hfail.
  assert (Hrun : execute_abcd_assessment_for_videos env config s =
                 (Raised ex, (creative_uris env config s).2)).
  { unfold execute_abcd_assessment_for_videos.
    apply bind_raised. destruct (creative_uris env config s) as [o s1].
    cbn in *. now subst. }
  split; [exact Hrun|].
  assert (Hsame : new_calls (execute_abcd_assessment_for_videos env config) s
                  = new_calls (creative_uris env config) s).
  { unfold new_calls. now rewrite Hrun. }
  rewrite Hsame.
  destruct (yields_new_calls _ _ s (creative_uris_calls env config))
    as [[H _] | H]; auto.
Qed.

Ltac through_writes :=
  cbn;
  rewrite ?world_write, ?sys_stdout_write, ?sys_stderr_write, ?calls_write;
  cbn.

Section Capture.

Context {World PyObj EvaluatedFeature Time : Type}.

Local Abbreviation M' := (M World PyObj EvaluatedFeature).
Local Abbreviation St' := (St World PyObj EvaluatedFeature).
Local Abbreviation Call' := (Call PyObj EvaluatedFeature).

Lemma captures_ret {A} (a : A) : captures (ret a : M' A).
Proof.
  intros s Ho He. repeat split; try assumption.
  exists "". cbn. now rewrite append_nil_r.
Qed.

Lemma captures_record (c : Call') {A} (a : A) :
  captures (fun s => (Returned a, record_call c s) : Outcome A * St').
Proof.
  intros s Ho He. repeat split; try assumption.
  exists "". cbn. now rewrite append_nil_r.
Qed.

Lemma captures_print (txt : string) : captures (print txt : M' unit).
Proof.
  intros s Ho He. unfold print. cbn [fst snd]. rewrite Ho.
  cbn [write sys_stdout sys_stderr buffer].
  repeat split; try assumption. now exists (txt +:+ nl).
Qed.

Lemma captures_invoke {A} (c : Outcome A -> Call')
    (f : World -> Reply World A) :
  captures (invoke c f).
Proof.
  intros s Ho He. unfold invoke, after_call. cbv zeta. cbn [fst snd].
  rewrite Ho, He.
  cbn [write set_world record_call sys_stdout sys_stderr buffer].
  repeat split; try assumption.
  exists (reply_stdout (f (world s)) +:+ reply_stderr (f (world s))).
  now rewrite append_assoc.
Qed.

Lemma captures_read {A} (g : St' -> A) :
  captures (fun s => (Returned (g s), s)).
Proof.
  intros s Ho He. repeat split; try assumption.
  exists "". cbn. now rewrite append_nil_r.
Qed.

Lemma captures_clock (env : Env World PyObj EvaluatedFeature Time) :
  captures (read_clock env).
Proof.
  intros s Ho He. repeat split; try assumption.
  exists "". cbn. now rewrite append_nil_r.
Qed.

Lemma captures_bind {A B} (m : M' A) (k : A -> M' B) :
  captures m -> (forall a, captures (k a)) -> captures (bind m k).
Proof.
  intros Hm Hk s Ho He.
  destruct (Hm s Ho He) as (Ho1 & He1 & txt1 & Hb1). unfold bind.
  destruct (m s) as [[a|ex] s1]; cbn [fst snd] in *.
  - destruct (Hk a s1 Ho1 He1) as (Ho2 & He2 & txt2 & Hb2).
    repeat split; try assumption.
    exists (txt1 +:+ txt2). now rewrite Hb2, Hb1, append_assoc.
  - repeat split; try assumption. now exists txt1.
Qed.

Lemma captures_if {A} (b : bool) (m1 m2 : M' A) :
  captures m1 -> captures m2 -> captures (if b then m1 else m2).
Proof. now destruct b. Qed.

End Capture.

Ltac captures_step :=
  lazymatch goal with
  | |- captures (bind _ _) => apply captures_bind; [|intros ?]
  | |- captures (ret _) => apply captures_ret
  | |- captures (print _) => apply captures_print
  | |- captures (logging_info _) => apply captures_record
  | |- captures (logging_error _) => apply captures_record
  | |- captures (new_video_assessment _) => apply captures_record
  | |- captures getvalue => apply captures_read
  | |- captures (read_clock _) => apply captures_clock
  | |- captures (invoke _ _) => apply captures_invoke
  | |- captures (if _ then _ else _) => apply captures_if
  end.

Section CaptureRun.

Context {World PyObj EvaluatedFeature Time : Type}.

Variable env : Env World PyObj EvaluatedFeature Time.

Lemma captures_assess_video config u : captures (assess_video env config u).
Proof. unfold assess_video. repeat captures_step. Qed.

Lemma captures_video_loop config uris : captures (video_loop env config uris).
Proof.
  induction uris as [|u rest IH].
  - apply captures_ret.
  - rewrite video_loop_cons. apply captures_if; [apply captures_record|].
    apply captures_bind; [apply captures_assess_video | auto].
Qed.

Lemma captures_execute config :
  captures (execute_abcd_assessment_for_videos env config).
Proof.
  unfold execute_abcd_assessment_for_videos, creative_uris.
  repeat captures_step. apply captures_video_loop.
Qed.

End CaptureRun.

Section WrapperMore.

Context {World PyObj EvaluatedFeature Time : Type}.

Local Abbreviation St' := (St World PyObj EvaluatedFeature).

Variable env : Env World PyObj EvaluatedFeature Time.

(** The only [return] inside the block is the one of the error result. *)
Lemma analyse_block_early_return (args : RunArgs PyObj) (s s1 : St')
    (d : gmap string string) :
  analyse_block env args s = (Returned (Some d), s1) ->
  d = <["error" := "Invalid brand metadata"]> {["logs" := buffer s1]}.
Proof.
  unfold analyse_block. intros H.
  apply bind_returned_inv in H as (config & sa & _ & H).
  apply bind_returned_inv in H as ([|] & sb & _ & H).
  - unfold bind, print, getvalue, ret in H. cbn [fst snd] in H.
    now injection H as <- <-.
  - repeat (apply bind_returned_inv in H as (? & ? & _ & H)).
    discriminate H.
Qed.

Lemma with_redirect_buffer {A} (m : M World PyObj EvaluatedFeature A)
    (s : St') :
  buffer (with_redirect m s).2 = buffer (m (set_streams Buffer Buffer s)).2
  /\ (with_redirect m s).1 = (m (set_streams Buffer Buffer s)).1.
Proof.
  unfold with_redirect.
  now destruct (m (set_streams Buffer Buffer s)) as [o s1].
Qed.

End WrapperMore.

(** X7. After [analyse], on every path (normal end, early return, an
    exception that is caught, an exception that is not), the two streams
    point where they pointed before the call. *)
Theorem analyse_releases_the_redirection {World PyObj EvaluatedFeature Time}
    (env : Env World PyObj EvaluatedFeature Time) (args : RunArgs PyObj)
    (s : St World PyObj EvaluatedFeature) :
  let s' := (analyse env args s).2 in
  sys_stdout s' = sys_stdout s /\ sys_stderr s' = sys_stderr s.
Proof.
  intros s'. subst s'.
  destruct (with_redirect (analyse_block env args) (new_buffer s))
    as [[early|ex] s1] eqn:Hblock;
    destruct (with_redirect_streams _ _ _ _ Hblock) as [Hout Herr];
    cbn [sys_stdout sys_stderr new_buffer] in Hout, Herr.
  - assert (Hs' : (analyse env args s).2 = s1).
    { unfold analyse, try_except, bind. rewrite Hblock.
      now destruct early. }
    now rewrite Hs'.
  - destruct (exc_is_exception ex) eqn:Hexc.
    + rewrite (analyse_handles _ _ _ _ _ Hblock Hexc). cbn [snd].
      now rewrite !sys_stdout_write, !sys_stderr_write.
    + now rewrite (analyse_lets_through _ _ _ _ _ Hblock Hexc).
Qed.

(** X8. Whenever [analyse] returns, its result is a dictionary whose
    ["logs"] value is the content of the buffer at the end of the run, and
    which is either that one entry or that entry together with
    ["error" = "Invalid brand metadata"]. *)
Theorem analyse_result_shape {World PyObj EvaluatedFeature Time}
    (env : Env World PyObj EvaluatedFeature Time) (args : RunArgs PyObj)
    (s s' : St World PyObj EvaluatedFeature) (result : gmap string string) :
  analyse env args s = (Returned result, s') ->
  result !! "logs" = Some (buffer s')
  /\ (result = {["logs" := buffer s']}
      \/ result = <["error" := "Invalid brand metadata"]>
                    {["logs" := buffer s']}).
Proof.
  intros Hrun.
  destruct (with_redirect (analyse_block env args) (new_buffer s))
    as [[[d|]|ex] s1] eqn:Hblock.
  - assert (Hs : analyse env args s = (Returned d, s1)).
    { unfold analyse, try_except, bind. now rewrite Hblock. }
    rewrite Hs in Hrun. injection Hrun as <- <-.
    destruct (with_redirect_buffer (analyse_block env args) (new_buffer s))
      as (Hbuf & Hout).
    rewrite Hblock in Hbuf, Hout. cbn [fst snd] in Hbuf, Hout.
    destruct (analyse_block env args (set_streams Buffer Buffer (new_buffer s)))
      as [o sb] eqn:Hinner. cbn [fst snd] in Hbuf, Hout. subst o.
    rewrite (analyse_block_early_return _ _ _ _ _ Hinner), Hbuf.
    split; [reflexivity | now right].
  - assert (Hs : analyse env args s =
                 (Returned {["logs" := buffer s1]}, s1)).
    { unfold analyse, try_except, bind. now rewrite Hblock. }
    rewrite Hs in Hrun. injection Hrun as <- <-.
    split; [apply lookup_singleton_eq | now left].
  - destruct (exc_is_exception ex) eqn:Hexc.
    + rewrite (analyse_handles _ _ _ _ _ Hblock Hexc) in Hrun.
      injection Hrun as <- <-. cbn [write buffer].
      split; [apply lookup_singleton_eq | now left].
    + rewrite (analyse_lets_through _ _ _ _ _ Hblock Hexc) in Hrun.
      discriminate Hrun.
Qed.

(** X10. For requests whose body is a JSON object, the endpoint hands on
    the six fields [video_url], [brand], [brand_variations], [products],
    [categories] and [cta], read with [data.get], and nothing else: two
    such bodies that agree on these fields (an absent field counting as
    [None]) lead to the same run, with the same result and the same
    effects. *)
Theorem analyse_endpoint_uses_six_fields {World PyObj EvaluatedFeature Time}
    (env : Env World PyObj EvaluatedFeature Time)
    (data1 data2 : gmap string PyObj)
    (s : St World PyObj EvaluatedFeature) :
  (forall k,
      k ∈ ["video_url"; "brand"; "brand_variations"; "products";
           "categories"; "cta"] ->
      data1 !! k = data2 !! k) ->
  analyse_endpoint env data1 s = analyse_endpoint env data2 s.
Proof.
  intros Hsame. unfold analyse_endpoint.
  rewrite (Hsame "video_url"), (Hsame "brand"),
    (Hsame "brand_variations"), (Hsame "products"),
    (Hsame "categories"), (Hsame "cta") by set_solver.
  reflexivity.
Qed.

Section FirstCall.

Context {World PyObj EvaluatedFeature Time : Type}.

Variable env : Env World PyObj EvaluatedFeature Time.

Lemma execute_first_call (config : Configuration) :
  yields (execute_abcd_assessment_for_videos env config)
    (fun _ new =>
       exists rest,
         new = CallGetProvider (creative_provider_type config) :: rest).
Proof.
  unfold execute_abcd_assessment_for_videos, creative_uris.
  apply yields_bind, yields_bind, yields_invoke.
  intros [p|ex]; [|now eexists].
  apply yields_invoke. intros [uris|ex]; [|now eexists].
  eapply yields_conseq; [apply (video_loop_cleanup_count env config uris)|].
  intros o new _. now eexists.
Qed.

End FirstCall.


(** ** The command-line entry point *)

(** X11. When an instance of [Exception] leaves the [try] block of
    [main], [main] records the error "ERROR: <message>" with the logger,
    writes the traceback to the stream [sys.stderr] points to, as the last
    thing written there, and returns normally. An exception that is not an
    instance of [Exception], such as the [SystemExit] of the argument
    parser, is not caught: [main] raises it. *)
Theorem main_contains_exceptions
    {World PyObj EvaluatedFeature Time Namespace}
    (env : Env World PyObj EvaluatedFeature Time)
    (cli : CliEnv World Time Namespace) (arg_list : option (list string))
    (s s1 : St World PyObj EvaluatedFeature) (ex : Exn) :
  main_block env cli arg_list s = (Raised ex, s1) ->
  (exc_is_exception ex = true ->
   exists s',
     main env cli arg_list s = (Returned tt, s')
     /\ calls s' = calls s1 ++ [LoggingError ("ERROR: " +:+ exc_str ex)]
     /\ exists before,
          match sys_stderr s1 with
          | Console => console s'
          | Buffer => buffer s'
          end = before +:+ exc_traceback ex)
  /\ (exc_is_exception ex = false ->
      main env cli arg_list s = (Raised ex, s1)).
Proof.
  intros Hblock. split; intros Hexc.
  - eexists. split.
    { unfold main, try_except. rewrite Hblock, Hexc. reflexivity. }
    split.
    { now rewrite calls_write. }
    cbn [sys_stderr record_call].
    destruct (sys_stderr s1); cbn [write console buffer record_call];
      eexists; reflexivity.
  - unfold main, try_except. now rewrite Hblock, Hexc.
Qed.

(** X12. When the arguments are parsed, the configuration is built and
    [invalid_brand_metadata] returns true for it, [main] records the two
    error messages and returns: after the validity test no collaborator is
    called. *)
Theorem main_stops_on_invalid_brand_metadata
    {World PyObj EvaluatedFeature Time Namespace}
    (env : Env World PyObj EvaluatedFeature Time)
    (cli : CliEnv World Time Namespace) (arg_list : option (list string))
    (s : St World PyObj EvaluatedFeature) (ns : Namespace)
    (config : Configuration) :
  let r0 := parse_args cli arg_list (world s) in
  let r1 := build_custom_config_from_args cli ns (reply_world r0) in
  reply_outcome r0 = Returned ns ->
  reply_outcome r1 = Returned config ->
  reply_outcome (invalid_brand_metadata env config (reply_world r1))
    = Returned true ->
  exists s',
    main env cli arg_list s = (Returned tt, s')
    /\ calls s' =
         calls s ++
         [CallInvalidBrandMetadata config;
          LoggingError
            ("The Extract Brand Metadata option is disabled and no brand details were defined. "
             +:+ nl);
          LoggingError
            ("Please enable the option or define brand details. " +:+ nl)].
Proof.
  intros r0 r1 H0 H1 H2. subst r0 r1.
  unfold main, try_except, main_block, bind, call, invoke.
  cbn. rewrite H0. through_writes. rewrite H1. through_writes.
  rewrite H2. through_writes.
  eexists. split; [reflexivity|].
  repeat first [ rewrite calls_after_call | rewrite calls_write
               | rewrite world_after_call
               | progress cbn [calls set_world record_call] ].
  now rewrite <- !app_assoc.
Qed.

(** X13. When the configuration is valid and its [video_uris] is falsy,
    [main] records the "Starting", "no videos" and timing messages and
    returns, without entering the orchestrator; the timing message renders
    the two readings of the clock, the second taken after the first. *)
Theorem main_skips_the_orchestrator_without_videos
    {World PyObj EvaluatedFeature Time Namespace}
    (env : Env World PyObj EvaluatedFeature Time)
    (cli : CliEnv World Time Namespace) (arg_list : option (list string))
    (s : St World PyObj EvaluatedFeature) (ns : Namespace)
    (config : Configuration) :
  let r0 := parse_args cli arg_list (world s) in
  let r1 := build_custom_config_from_args cli ns (reply_world r0) in
  let r2 := invalid_brand_metadata env config (reply_world r1) in
  let start_time := time_time env (reply_world r2) in
  let now := time_time env start_time.2 in
  reply_outcome r0 = Returned ns ->
  reply_outcome r1 = Returned config ->
  reply_outcome r2 = Returned false ->
  truthy (video_uris config) = false ->
  exists s',
    main env cli arg_list s = (Returned tt, s')
    /\ calls s' =
         calls s ++
         [CallInvalidBrandMetadata config;
          LoggingInfo ("Starting ABCD assessment... " +:+ nl);
          LoggingInfo ("There are no videos to process. " +:+ nl);
          LoggingInfo
            ("ABCD assessment took - " +:+
             str_mins cli now.1 start_time.1 +:+ " mins. - " +:+ nl)].
Proof.
  intros r0 r1 r2 start_time now H0 H1 H2 Hfalsy.
  subst r0 r1 r2 start_time now.
  unfold main, try_except, main_block, read_clock, bind, call, invoke.
  cbn. rewrite H0. through_writes. rewrite H1. through_writes.
  rewrite H2. through_writes. rewrite Hfalsy. through_writes.
  eexists. split; [reflexivity|].
  repeat first [ rewrite calls_after_call | rewrite calls_write
               | rewrite world_after_call
               | progress cbn [calls world set_world record_call] ].
  now rewrite <- !app_assoc.
Qed.

(** ** Witnesses of the further properties *)

Lemma exception_aborts_the_batch_witness :
  video_loop (Fixtures.env_failing_evaluation Fixtures.batch_config)
    Fixtures.batch_config Fixtures.batch Fixtures.resolved =
  (Raised Fixtures.boom,
   (assess_video (Fixtures.env_failing_evaluation Fixtures.batch_config)
      Fixtures.batch_config "gs://bucket/video1.mp4" Fixtures.resolved).2).
Proof.
  assert (Hk : Fixtures.batch !! 0 = Some "gs://bucket/video1.mp4")
    by reflexivity.
  assert (Hall : forallb (consistent Fixtures.batch_config)
                   (take 1 Fixtures.batch) = true)
    by (vm_compute; reflexivity).
  assert (Hpre : video_loop
                   (Fixtures.env_failing_evaluation Fixtures.batch_config)
                   Fixtures.batch_config (take 0 Fixtures.batch)
                   Fixtures.resolved = (Returned tt, Fixtures.resolved))
    by reflexivity.
  assert (Hu : assess_video
                 (Fixtures.env_failing_evaluation Fixtures.batch_config)
                 Fixtures.batch_config "gs://bucket/video1.mp4"
                 Fixtures.resolved =
               (Raised Fixtures.boom,
                (assess_video
                   (Fixtures.env_failing_evaluation Fixtures.batch_config)
                   Fixtures.batch_config "gs://bucket/video1.mp4"
                   Fixtures.resolved).2))
    by (vm_compute; reflexivity).
  exact (proj1 (exception_aborts_the_batch _ _ _ _ _ _ _ _ _
                  Hk Hall Hpre Hu)).
Defined.

Lemma completed_iteration_trace_witness :
  exists long_form shorts,
    new_calls
      (assess_video (Fixtures.env_of Fixtures.batch_config false)
         Fixtures.batch_config "gs://bucket/video1.mp4")
      Fixtures.resolved =
    iteration_calls Fixtures.batch_config "gs://bucket/video1.mp4"
      long_form shorts.
Proof.
  assert (Hdone :
            (assess_video (Fixtures.env_of Fixtures.batch_config false)
               Fixtures.batch_config "gs://bucket/video1.mp4"
               Fixtures.resolved).1 = Returned tt)
    by (vm_compute; reflexivity).
  destruct (completed_iteration_trace _ _ _ _ Hdone)
    as (long_form & shorts & Hcalls & _).
  exists long_form, shorts. exact Hcalls.
Defined.

Lemma completed_batch_assesses_every_video_witness :
  assessed_uris
    (new_calls
       (video_loop (Fixtures.env_of CliFixtures.good_config false)
          CliFixtures.good_config CliFixtures.good_batch)
       Fixtures.start) =
  CliFixtures.good_batch.
Proof.
  assert (Hall : forallb (consistent CliFixtures.good_config)
                   CliFixtures.good_batch = true)
    by (vm_compute; reflexivity).
  assert (Hdone :
            (video_loop (Fixtures.env_of CliFixtures.good_config false)
               CliFixtures.good_config CliFixtures.good_batch
               Fixtures.start).1 = Returned tt)
    by (vm_compute; reflexivity).
  exact (completed_batch_assesses_every_video _ _ _ _ Hall Hdone).
Defined.

Lemma provider_failure_skips_the_batch_witness :
  execute_abcd_assessment_for_videos
    (CliFixtures.env_failing_provider Fixtures.batch_config)
    Fixtures.batch_config Fixtures.start =
  (Raised Fixtures.boom,
   (creative_uris (CliFixtures.env_failing_provider Fixtures.batch_config)
      Fixtures.batch_config Fixtures.start).2).
Proof.
  assert (Hfail :
            (creative_uris
               (CliFixtures.env_failing_provider Fixtures.batch_config)
               Fixtures.batch_config Fixtures.start).1 =
            Raised Fixtures.boom) by (vm_compute; reflexivity).
  exact (proj1 (provider_failure_skips_the_batch _ _ _ _ Hfail)).
Defined.


Lemma analyse_result_shape_witness :
  ({["logs" :=
       buffer (analyse (Fixtures.env_of Fixtures.no_videos_config false)
                 Fixtures.no_args Fixtures.start).2]}
     : gmap string string) !! "logs" =
  Some (buffer (analyse (Fixtures.env_of Fixtures.no_videos_config false)
                  Fixtures.no_args Fixtures.start).2).
Proof.
  assert (Hrun :
            analyse (Fixtures.env_of Fixtures.no_videos_config false)
              Fixtures.no_args Fixtures.start =
            (Returned
               {["logs" :=
                   buffer (analyse
                             (Fixtures.env_of Fixtures.no_videos_config false)
                             Fixtures.no_args Fixtures.start).2]},
             (analyse (Fixtures.env_of Fixtures.no_videos_config false)
                Fixtures.no_args Fixtures.start).2))
    by (vm_compute; reflexivity).
  exact (proj1 (analyse_result_shape _ _ _ _ _ Hrun)).
Defined.

Lemma analyse_endpoint_uses_six_fields_witness :
  analyse_endpoint (Fixtures.env_of Fixtures.no_videos_config false)
    (∅ : gmap string string) Fixtures.start =
  analyse_endpoint (Fixtures.env_of Fixtures.no_videos_config false)
    ({["comment" := "not a field of the request"]} : gmap string string)
    Fixtures.start.
Proof.
  assert (Hsame :
            forall k,
              k ∈ ["video_url"; "brand"; "brand_variations"; "products";
                   "categories"; "cta"] ->
              (∅ : gmap string string) !! k =
              ({["comment" := "not a field of the request"]}
                 : gmap string string) !! k).
  { intros k Hk.
    repeat (apply elem_of_cons in Hk as [-> | Hk];
            [vm_compute; reflexivity|]).
    now apply elem_of_nil in Hk. }
  exact (analyse_endpoint_uses_six_fields _ _ _ _ Hsame).
Defined.

Lemma main_contains_exceptions_witness :
  exists s',
    main (Fixtures.env_of Fixtures.batch_config false) CliFixtures.cli_failing
      None Fixtures.start = (Returned tt, s')
    /\ calls s' =
         calls (main_block (Fixtures.env_of Fixtures.batch_config false)
                  CliFixtures.cli_failing None Fixtures.start).2 ++
         [LoggingError ("ERROR: " +:+ exc_str Fixtures.boom)].
Proof.
  assert (Hblock :
            main_block (Fixtures.env_of Fixtures.batch_config false)
              CliFixtures.cli_failing None Fixtures.start =
            (Raised Fixtures.boom,
             (main_block (Fixtures.env_of Fixtures.batch_config false)
                CliFixtures.cli_failing None Fixtures.start).2))
    by (vm_compute; reflexivity).
  assert (Hexc : exc_is_exception Fixtures.boom = true) by reflexivity.
  destruct (proj1 (main_contains_exceptions _ _ _ _ _ _ Hblock) Hexc)
    as (s' & Hrun & Hcalls & _).
  exists s'. split; [exact Hrun | exact Hcalls].
Defined.

Lemma main_stops_on_invalid_brand_metadata_witness :
  exists s',
    main (Fixtures.env_of Fixtures.batch_config true)
      (CliFixtures.cli_of Fixtures.batch_config) None Fixtures.start =
    (Returned tt, s').
Proof.
  assert (H0 : reply_outcome
                 (parse_args (CliFixtures.cli_of Fixtures.batch_config) None
                    (world Fixtures.start)) = Returned [])
    by reflexivity.
  assert (H1 : reply_outcome
                 (build_custom_config_from_args
                    (CliFixtures.cli_of Fixtures.batch_config) []
                    (reply_world
                       (parse_args (CliFixtures.cli_of Fixtures.batch_config)
                          None (world Fixtures.start)))) =
               Returned Fixtures.batch_config) by reflexivity.
  assert (H2 : reply_outcome
                 (invalid_brand_metadata
                    (Fixtures.env_of Fixtures.batch_config true)
                    Fixtures.batch_config
                    (reply_world
                       (build_custom_config_from_args
                          (CliFixtures.cli_of Fixtures.batch_config) []
                          (reply_world
                             (parse_args
                                (CliFixtures.cli_of Fixtures.batch_config)
                                None (world Fixtures.start)))))) =
               Returned true) by reflexivity.
  destruct (main_stops_on_invalid_brand_metadata _ _ _ _ _ _ H0 H1 H2)
    as (s' & Hrun & _).
  exists s'. exact Hrun.
Defined.

Lemma main_skips_the_orchestrator_without_videos_witness :
  exists s',
    main (Fixtures.env_of Fixtures.no_videos_config false)
      (CliFixtures.cli_of Fixtures.no_videos_config) None Fixtures.start =
    (Returned tt, s').
Proof.
  assert (H0 : reply_outcome
                 (parse_args (CliFixtures.cli_of Fixtures.no_videos_config)
                    None (world Fixtures.start)) = Returned [])
    by reflexivity.
  assert (H1 : reply_outcome
                 (build_custom_config_from_args
                    (CliFixtures.cli_of Fixtures.no_videos_config) []
                    (reply_world
                       (parse_args
                          (CliFixtures.cli_of Fixtures.no_videos_config)
                          None (world Fixtures.start)))) =
               Returned Fixtures.no_videos_config) by reflexivity.
  assert (H2 : reply_outcome
                 (invalid_brand_metadata
                    (Fixtures.env_of Fixtures.no_videos_config false)
                    Fixtures.no_videos_config
                    (reply_world
                       (build_custom_config_from_args
                          (CliFixtures.cli_of Fixtures.no_videos_config) []
                          (reply_world
                             (parse_args
                                (CliFixtures.cli_of
                                   Fixtures.no_videos_config)
                                None (world Fixtures.start)))))) =
               Returned false) by reflexivity.
  assert (H3 : truthy (video_uris Fixtures.no_videos_config) = false)
    by reflexivity.
  destruct (main_skips_the_orchestrator_without_videos
              _ _ _ _ _ _ H0 H1 H2 H3) as (s' & Hrun & _).
  exists s'. exact Hrun.
Defined.
